(** * A shallow embedding of the clickhouse_mcp query path

    The development models [src/clickhouse_mcp/func.py] (HTTP client,
    result normalizers and formatter), [src/clickhouse_mcp/main.py]
    (the query gateway [execute_db_query]) and [app_lifespan] of
    [src/clickhouse_mcp/lifespan_code.py] (its startup and shutdown halves,
    with the module's own HTTP client).

    Python strings are modelled as [string]: each [ascii] is read as a
    code point below 256 (Latin-1), which is the range on which
    [str.strip] and [str.lower] are modelled below.  Python exceptions
    are the [Raise] case of [outcome], carrying [str(e)]. *)

From Stdlib Require Import String Ascii List ZArith Arith Lia Bool.
From Stdlib Require Import DecimalString.
Import ListNotations.

Open Scope bool_scope.
Open Scope string_scope.
Open Scope nat_scope.

(** ** Python string primitives *)

Module Py.

(** [str.isspace] on code points below 256. *)
Definition is_space (c : ascii) : bool :=
  let n := nat_of_ascii c in
  ((9 <=? n) && (n <=? 13)) || ((28 <=? n) && (n <=? 32))
  || (n =? 133) || (n =? 160).

Fixpoint lstrip (s : string) : string :=
  match s with
  | EmptyString => EmptyString
  | String c r => if is_space c then lstrip r else s
  end.

Fixpoint rstrip (s : string) : string :=
  match s with
  | EmptyString => EmptyString
  | String c r =>
      let r' := rstrip r in
      match r' with
      | EmptyString => if is_space c then EmptyString else String c EmptyString
      | _ => String c r'
      end
  end.

(** [s.strip()] *)
Definition strip (s : string) : string := rstrip (lstrip s).

(** [str.lower] on code points below 256: A-Z and the Latin-1 capitals. *)
Definition lower_char (c : ascii) : ascii :=
  let n := nat_of_ascii c in
  if ((65 <=? n) && (n <=? 90)) || ((192 <=? n) && (n <=? 222) && negb (n =? 215))
  then ascii_of_nat (n + 32) else c.

Fixpoint lower (s : string) : string :=
  match s with
  | EmptyString => EmptyString
  | String c r => String (lower_char c) (lower r)
  end.

(** [s.startswith(p)] *)
Definition startswith (s p : string) : bool := String.prefix p s.

(** [s.startswith(tuple_of_prefixes)] *)
Definition startswith_any (s : string) (ps : list string) : bool :=
  existsb (startswith s) ps.

(** [p in s] for strings. *)
Fixpoint contains (p s : string) : bool :=
  String.prefix p s ||
  match s with
  | EmptyString => false
  | String _ r => contains p r
  end.

(** [s[:-1]] *)
Fixpoint drop_last (s : string) : string :=
  match s with
  | EmptyString => EmptyString
  | String _ EmptyString => EmptyString
  | String c r => String c (drop_last r)
  end.

(** [s[:n]] *)
Definition take (n : nat) (s : string) : string := String.substring 0 n s.

(** [s.split(c)] for a one-character separator. *)
Fixpoint split (c : ascii) (s : string) : list string :=
  match s with
  | EmptyString => [EmptyString]
  | String d r =>
      if Ascii.eqb c d then EmptyString :: split c r
      else match split c r with
           | w :: ws => String d w :: ws
           | [] => [String d EmptyString]
           end
  end.

(** [s.replace(old, new)] for a non-empty [old]: left-to-right,
    non-overlapping.  [fuel] bounds the scan and is the length of [s]. *)
Fixpoint replace_fuel (fuel : nat) (old new s : string) : string :=
  match fuel with
  | O => s
  | S f =>
      match s with
      | EmptyString => EmptyString
      | String c r =>
          if String.prefix old s
          then new ++ replace_fuel f old new
                      (String.substring (String.length old)
                         (String.length s - String.length old) s)
          else String c (replace_fuel f old new r)
      end
  end.

Definition replace (old new s : string) : string :=
  replace_fuel (String.length s) old new s.

Definition dquote : string := String (ascii_of_nat 34) EmptyString.
Definition nl : string := String (ascii_of_nat 10) EmptyString.
Definition tab : string := String (ascii_of_nat 9) EmptyString.
Definition nl_char : ascii := ascii_of_nat 10.
Definition tab_char : ascii := ascii_of_nat 9.

Fixpoint join (sep : string) (l : list string) : string :=
  match l with
  | [] => EmptyString
  | [x] => x
  | x :: r => x ++ sep ++ join sep r
  end.

(** [str(n)] for an int. *)
Definition str_Z (z : Z) : string := NilZero.string_of_int (Z.to_int z).
Definition str_nat (n : nat) : string := str_Z (Z.of_nat n).

End Py.

(** ** Python values

    The values the code inspects: JSON payloads decoded by
    [response.json()], native driver result sets, tool parameters.
    Dictionary keys are strings (JSON objects, driver dict rows and the
    tool's [Dict[str, Any]] parameters). *)

Set Warnings "-register-all".

Inductive pyval : Type :=
| PNone
| PBool (b : bool)
| PInt (z : Z)
| PStr (s : string)
| PList (l : list pyval)
| PTuple (l : list pyval)
| PDict (kv : list (string * pyval)).

(** Python exceptions: [Raise m] is an exception whose [str(e)] is [m]. *)
Inductive outcome (A : Type) : Type :=
| Ok (a : A)
| Raise (msg : string).
Arguments Ok {A} a.
Arguments Raise {A} msg.

Definition bind {A B} (m : outcome A) (k : A -> outcome B) : outcome B :=
  match m with Ok a => k a | Raise e => Raise e end.

Notation "'let*' x := m 'in' k" := (bind m (fun x => k))
  (at level 200, x name, m at level 100, k at level 200).

Fixpoint map_outcome {A B} (f : A -> outcome B) (l : list A) : outcome (list B) :=
  match l with
  | [] => Ok []
  | x :: r => let* y := f x in let* ys := map_outcome f r in Ok (y :: ys)
  end.

Module PyVal.

(** [bool(v)] *)
Definition truthy (v : pyval) : bool :=
  match v with
  | PNone => false
  | PBool b => b
  | PInt z => negb (Z.eqb z 0)
  | PStr s => negb (String.eqb s EmptyString)
  | PList l | PTuple l => negb (Nat.eqb (List.length l) 0)
  | PDict kv => negb (Nat.eqb (List.length kv) 0)
  end.

Definition is_dict (v : pyval) : bool :=
  match v with PDict _ => true | _ => false end.

(** [isinstance(v, (list, tuple))] *)
Definition is_list_or_tuple (v : pyval) : bool :=
  match v with PList _ | PTuple _ => true | _ => false end.

Definition hex_digit (n : nat) : ascii :=
  if n <? 10 then ascii_of_nat (48 + n) else ascii_of_nat (87 + n).

(** One character of [repr] of a string quoted with [q]. *)
Definition repr_char (q : ascii) (c : ascii) : string :=
  let n := nat_of_ascii c in
  if n =? 92 then "\\"
  else if n =? 9 then "\t"
  else if n =? 10 then "\n"
  else if n =? 13 then "\r"
  else if Ascii.eqb c q then String "\" (String c EmptyString)
  else if (n <? 32) || ((127 <=? n) && (n <=? 160)) || (n =? 173)
  then String "\" (String "x" (String (hex_digit (n / 16))
                                   (String (hex_digit (n mod 16)) EmptyString)))
  else String c EmptyString.

Fixpoint repr_chars (q : ascii) (s : string) : string :=
  match s with
  | EmptyString => EmptyString
  | String c r => repr_char q c ++ repr_chars q r
  end.

(** [repr(s)]: single quotes unless [s] has a single and no double quote. *)
Definition repr_string (s : string) : string :=
  let q := if Py.contains "'" s && negb (Py.contains Py.dquote s)
           then ascii_of_nat 34 else "'"%char in
  String q (repr_chars q s ++ String q EmptyString).

Fixpoint repr (v : pyval) : string :=
  match v with
  | PNone => "None"
  | PBool true => "True"
  | PBool false => "False"
  | PInt z => Py.str_Z z
  | PStr s => repr_string s
  | PList l => "[" ++ Py.join ", " (map repr l) ++ "]"
  | PTuple [x] => "(" ++ repr x ++ ",)"
  | PTuple l => "(" ++ Py.join ", " (map repr l) ++ ")"
  | PDict kv =>
      "{" ++ Py.join ", " (map (fun '(k, x) => repr_string k ++ ": " ++ repr x) kv)
      ++ "}"
  end.

(** [str(v)] *)
Definition str (v : pyval) : string :=
  match v with PStr s => s | _ => repr v end.

Fixpoint dict_get (kv : list (string * pyval)) (k : string) (default : pyval) : pyval :=
  match kv with
  | [] => default
  | (k', x) :: r => if String.eqb k k' then x else dict_get r k default
  end.

(** [k in container] for a string [k]. *)
Definition contains_key (k : string) (v : pyval) : outcome bool :=
  match v with
  | PDict kv => Ok (existsb (fun '(k', _) => String.eqb k k') kv)
  | PList l | PTuple l =>
      Ok (existsb (fun x => match x with PStr s => String.eqb k s | _ => false end) l)
  | PStr s => Ok (Py.contains k s)
  | _ => Raise "argument of type is not iterable"
  end.

(** [v.get(k, default)]: only dictionaries have [get]. *)
Definition get (v : pyval) (k : string) (default : pyval) : outcome pyval :=
  match v with
  | PDict kv => Ok (dict_get kv k default)
  | _ => Raise "object has no attribute 'get'"
  end.

(** [len(v)] *)
Definition len (v : pyval) : outcome nat :=
  match v with
  | PList l | PTuple l => Ok (List.length l)
  | PStr s => Ok (String.length s)
  | PDict kv => Ok (List.length kv)
  | _ => Raise "object has no len()"
  end.

(** [v[:n]] for [n >= 0]. *)
Definition slice_to (v : pyval) (n : nat) : outcome pyval :=
  match v with
  | PList l => Ok (PList (firstn n l))
  | PTuple l => Ok (PTuple (firstn n l))
  | PStr s => Ok (PStr (Py.take n s))
  | PDict _ => Raise "unhashable type: 'slice'"
  | _ => Raise "object is not subscriptable"
  end.

(** [v[0]] *)
Definition index0 (v : pyval) : outcome pyval :=
  match v with
  | PList (x :: _) | PTuple (x :: _) => Ok x
  | PList [] | PTuple [] => Raise "list index out of range"
  | PStr (String c _) => Ok (PStr (String c EmptyString))
  | PStr EmptyString => Raise "string index out of range"
  | PDict _ => Raise "0"
  | _ => Raise "object is not subscriptable"
  end.

(** [list(v.keys())] for a dictionary. *)
Definition keys (kv : list (string * pyval)) : list pyval :=
  map (fun '(k, _) => PStr k) kv.

(** [for x in v]: the items iteration yields. *)
Definition iter (v : pyval) : outcome (list pyval) :=
  match v with
  | PList l | PTuple l => Ok l
  | PStr s => Ok (map (fun c => PStr (String c EmptyString)) (list_ascii_of_string s))
  | PDict kv => Ok (keys kv)
  | _ => Raise "object is not iterable"
  end.

End PyVal.

(** ** The canonical result dictionary of [func.py]

    [{"success", "data", "error", "row_count", "column_names"}].
    [data] is [None] or the (sliced) row sequence; [column_names] holds
    whatever the code put there ([col.get("name")] may be any value). *)

Record QueryResult : Type := mkResult {
  success : bool;
  data : option pyval;
  error : option string;
  row_count : nat;
  column_names : list pyval
}.

Definition failure_result (e : string) : QueryResult :=
  mkResult false None (Some e) 0 [].

Definition empty_success : QueryResult :=
  mkResult true (Some (PList [])) None 0 [].

(** ** HTTP transport (the [requests] collaborator)

    A response carries its [Content-Type] header (if any), its text and
    what [response.json()] returns on it ([None]: [JSONDecodeError]). *)

Record Response : Type := mkResponse {
  resp_content_type : option string;
  resp_text : string;
  resp_json : option pyval
}.

(** The query parameters of one [requests.get] call. *)
Record HttpRequest : Type := mkRequest {
  req_host : string;
  req_port : Z;
  req_query : string;
  req_user : string;
  req_password : string;
  req_database : string;
  req_default_format : option string;
  req_max_result_rows : option string
}.

(** [requests.get(...)] followed by [raise_for_status()]: an exception
    (connection error, timeout, HTTP status >= 400) or a response. *)
Inductive http_outcome : Type :=
| HttpFail (msg : string)
| HttpOk (r : Response).

Module Func.

(** [process_clickhouse_result(result, max_rows)], func.py:151-179. *)
Definition process_clickhouse_result (result : pyval) (max_rows : nat)
  : outcome QueryResult :=
  let* has_data := PyVal.contains_key "data" result in
  if negb has_data then Ok empty_success else
  let* rows := PyVal.get result "data" (PList []) in
  let* column_names :=
    (let* has_meta := PyVal.contains_key "meta" result in
     if has_meta then
       let* meta := PyVal.get result "meta" (PList []) in
       let* cols := PyVal.iter meta in
       map_outcome (fun col => PyVal.get col "name" PNone) cols
     else if PyVal.truthy rows then
       let* r0 := PyVal.index0 rows in
       Ok (match r0 with PDict kv => PyVal.keys kv | _ => [] end)
     else Ok []) in
  let* d := PyVal.slice_to rows max_rows in
  let* n := PyVal.len rows in
  Ok (mkResult true (Some d) None n column_names).

(** The multi-line TSV loop, func.py:93-104: the rows and the column
    names, each line being skipped, a tab-separated row, or a one-cell row. *)
Fixpoint tsv_rows (lines : list string) (rows : list pyval) (cols : list pyval)
  : list pyval * list pyval :=
  match lines with
  | [] => (rows, cols)
  | line :: rest =>
      if String.eqb (Py.strip line) EmptyString then tsv_rows rest rows cols
      else if Py.contains Py.tab line then
        let row_values := Py.split Py.tab_char line in
        let cols' :=
          if (List.length cols =? 1) && (List.length cols <? List.length row_values)
          then map (fun i => PStr ("column_" ++ Py.str_nat (i + 1)))
                   (seq 0 (List.length row_values))
          else cols in
        tsv_rows rest (rows ++ [PList (map PStr row_values)])%list cols'
      else tsv_rows rest (rows ++ [PList [PStr line]])%list cols
  end.

Definition single_value (s : string) : QueryResult :=
  mkResult true (Some (PList [PList [PStr s]])) None 1 [PStr "result"].

(** [process_clickhouse_response(response, max_rows)], func.py:56-149. *)
Definition process_clickhouse_response (response : Response) (max_rows : nat)
  : QueryResult :=
  let content_type :=
    Py.lower (match resp_content_type response with Some c => c | None => EmptyString end) in
  let via_text (_ : unit) : QueryResult :=
    if Py.contains "text/tab-separated-values" content_type
       || Py.contains "tsv" content_type then
      let text := Py.strip (resp_text response) in
      if String.eqb text EmptyString then empty_success else
      let lines := Py.split Py.nl_char text in
      match lines with
      | [l] => if negb (Py.contains Py.tab l) then single_value l
               else let '(rows, cols) := tsv_rows lines [] [PStr "value"] in
                    mkResult true (Some (PList (firstn max_rows rows))) None
                      (List.length rows) cols
      | _ => let '(rows, cols) :=
               tsv_rows lines [] (match lines with [] => [] | _ => [PStr "value"] end) in
             mkResult true (Some (PList (firstn max_rows rows))) None
               (List.length rows) cols
      end
    else
      let text := Py.strip (resp_text response) in
      if String.eqb text EmptyString then empty_success
      else if negb (Py.contains Py.nl text) then single_value text
      else
        let lines := filter (fun l => negb (String.eqb (Py.strip l) EmptyString))
                       (Py.split Py.nl_char text) in
        mkResult true
          (Some (PList (map (fun l => PList [PStr l]) (firstn max_rows lines))))
          None (List.length lines) [PStr "result"] in
  if Py.contains "json" content_type then
    match resp_json response with
    | Some result =>
        match process_clickhouse_result result max_rows with
        | Ok r => r
        | Raise e => failure_result e
        end
    | None => via_text tt
    end
  else via_text tt.

(** [process_native_result(result_set, query_lower, max_rows)],
    func.py:181-266. *)
Definition process_native_result (result_set : pyval) (query_lower : string)
  (max_rows : nat) : QueryResult :=
  if negb (PyVal.truthy result_set) then empty_success else
  match result_set with
  | PList [] => empty_success
  | PList ((r0 :: _) as l) =>
      let column_i (n : nat) := map (fun i => PStr ("column_" ++ Py.str_nat i)) (seq 0 n) in
      if Py.startswith_any query_lower ["show"; "describe"; "desc"] then
        match r0 with
        | PList c0 | PTuple c0 =>
            let column_names :=
              if Py.startswith query_lower "show tables" then [PStr "table_name"]
              else if Py.startswith_any query_lower ["describe"; "desc"]
              then [PStr "name"; PStr "type"; PStr "default_type"; PStr "default_expression"]
              else column_i (List.length c0) in
            mkResult true (Some (PList (firstn max_rows l))) None (List.length l) column_names
        | _ =>
            mkResult true (Some (PList (map (fun it => PList [it]) (firstn max_rows l))))
              None (List.length l) [PStr "value"]
        end
      else
        match r0 with
        | PDict kv =>
            mkResult true (Some (PList (firstn max_rows l))) None (List.length l) (PyVal.keys kv)
        | _ =>
            let num_cols := match r0 with PList c0 | PTuple c0 => List.length c0 | _ => 1 end in
            mkResult true (Some (PList (firstn max_rows l))) None (List.length l) (column_i num_cols)
        end
  | _ => single_value (PyVal.str result_set)
  end.

(** The placeholder loop of [execute_http_query], func.py:13-20. *)
Definition substitute (params : list (string * pyval)) (query : string) : string :=
  fold_left
    (fun q '(key, value) =>
       let placeholder := "{" ++ key ++ "}" in
       if Py.contains placeholder q
       then Py.replace placeholder
              (match value with PStr s => "'" ++ s ++ "'" | _ => PyVal.str value end) q
       else q)
    params query.

(** The request [execute_http_query] sends, func.py:13-39. *)
Definition http_request (host : string) (port : Z) (database query username password : string)
  (params : list (string * pyval)) (max_rows : nat) : HttpRequest :=
  let query := match params with [] => query | _ => substitute params query end in
  mkRequest host port query username password database
    (Some "JSONCompact") (Some (Py.str_nat max_rows)).

(** [execute_http_query(host, port, database, query, username, password,
    params, max_rows)], func.py:8-54.  [str(value)] and the placeholder
    concatenation do not raise on JSON values with string keys, so the
    parameter-error branch of lines 21-29 is not reachable here. *)
Definition execute_http_query (server : HttpRequest -> http_outcome)
  (host : string) (port : Z) (database query username password : string)
  (params : list (string * pyval)) (max_rows : nat) : QueryResult :=
  match server (http_request host port database query username password params max_rows) with
  | HttpFail e => failure_result e
  | HttpOk response => process_clickhouse_response response max_rows
  end.

End Func.

Module Format.

Fixpoint spaces (n : nat) : string :=
  match n with O => EmptyString | S k => String " " (spaces k) end.

Fixpoint dashes (n : nat) : string :=
  match n with O => EmptyString | S k => String "-" (dashes k) end.

(** ["{:<w}".format(s)] *)
Definition pad (w : nat) (s : string) : string := s ++ spaces (w - String.length s).

(** [row_format.format] applied to the cells of a row: cells beyond the widths are ignored. *)
Definition format_row (widths : list nat) (row : list string) : string :=
  "| " ++ Py.join " | " (map (fun '(w, c) => pad w c) (combine widths row)) ++ " |".

Definition separator (widths : list nat) : string :=
  "+" ++ Py.join "+" (map (fun w => dashes (w + 2)) widths) ++ "+".

(** [max(len(row[i]) for row in str_rows if i < len(row))] *)
Definition col_width (str_rows : list (list string)) (i : nat) : nat :=
  fold_left Nat.max
    (map (fun row => String.length (nth i row EmptyString)) 
         (filter (fun row => i <? List.length row) str_rows)) 0.

(** [while len(row) < len(col_widths)]: append empty cells. *)
Definition pad_cells (n : nat) (row : list string) : list string :=
  (row ++ repeat EmptyString (n - List.length row))%list.

(** [row.get(col, ...)] with the empty string as default. *)
Definition cell_of (row col : pyval) : outcome pyval :=
  match row with
  | PDict kv => Ok (match col with PStr k => PyVal.dict_get kv k (PStr EmptyString) | _ => PStr EmptyString end)
  | _ => Raise "object has no attribute 'get'"
  end.

(** func.py:280-342: the table, once [data] is known to be truthy. *)
Definition format_table (result : QueryResult) (d : pyval) : outcome string :=
  let column_names := column_names result in
  let header := match column_names with [] => [] | _ => [PList column_names] end in
  let* items := PyVal.iter d in
  let* d0 := PyVal.index0 d in
  let* body :=
    match d0 with
    | PDict _ =>
        map_outcome (fun row =>
                       let* cells := map_outcome (cell_of row) column_names in
                       Ok (PList cells)) items
    | PList _ => Ok items
    | _ => Ok (map (fun it => PList [it]) items)
    end in
  let rows := (header ++ body)%list in
  match rows with
  | [] => Ok "Query executed. No data to display."
  | _ =>
  let* str_rows :=
    map_outcome (fun row => let* cells := PyVal.iter row in Ok (map PyVal.str cells)) rows in
  let widths := map (col_width str_rows) (seq 0 (List.length (hd [] str_rows))) in
  let sep := separator widths in
  let '(head_lines, data_rows) :=
    match column_names with
    | [] => ([], str_rows)
    | _ => ([format_row widths (hd [] str_rows); sep], tl str_rows)
    end in
  let* n := PyVal.len d in
  Ok (Py.join Py.nl
        ([sep] ++ head_lines
         ++ map (fun r => format_row widths (pad_cells (List.length widths) r)) data_rows
         ++ [sep; ("Total rows: " ++ Py.str_nat (row_count result)
                   ++ " (showing first " ++ Py.str_nat n ++ ")")%string])%list)
  end.

(** [format_query_results(result)], func.py:268-342. *)
Definition format_query_results (result : QueryResult) : outcome string :=
  let rows_returned := "Query executed. Rows returned: " ++ Py.str_nat (row_count result) in
  if negb (success result) then
    Ok ("Error executing query: " ++ match error result with Some e => e | None => "None" end)
  else if (match error result with Some e => negb (String.eqb e EmptyString) | None => false end) then
    Ok ("Error: " ++ match error result with Some e => e | None => "None" end)
  else match data result with
  | None => Ok rows_returned
  | Some d => if negb (PyVal.truthy d) then Ok rows_returned else format_table result d
  end.

End Format.

(** ** Process state and collaborators *)

Inductive transport : Type := Http | Native.

(** [DB_CONFIG], lifespan_code.py:15-24. *)
Record DBConfig : Type := mkConfig {
  cfg_host : string;
  cfg_port : Z;
  cfg_http_port : Z;
  cfg_database : string;
  cfg_username : string;
  cfg_password : string;
  cfg_max_rows : nat
}.

(** [DatabaseConnection], lifespan_code.py:27-35; the handle itself is
    the [w_native_conn] collaborator of the [World] for a native
    connection and unused by the query path for an HTTP one. *)
Record DatabaseConnection : Type := mkConnection {
  dc_database : string;
  dc_connection_type : transport
}.

(** [AppContext], lifespan_code.py:37-46. *)
Record AppContext : Type := mkContext {
  ctx_connection : option DatabaseConnection;
  ctx_connection_mode : option transport
}.

(** [app_context = AppContext()] *)
Definition initial_context : AppContext := mkContext None None.

(** What one [client.execute(query, params)] of the native driver does. *)
Inductive native_outcome : Type :=
| NativeFail (msg : string)
| NativeRows (result_set : pyval).

(** The collaborators the code reaches: the HTTP server, the native
    client opened at startup (its [SELECT 1] probe and later queries),
    the temporary native client of main.py:138-154 (constructed, run and
    disconnected: any exception there is one failure), the module-level
    availability flags and the text of [traceback.format_exc()]. *)
Record World : Type := mkWorld {
  w_http : HttpRequest -> http_outcome;
  w_native_conn : string -> list (string * pyval) -> native_outcome;
  w_native_temp : string -> list (string * pyval) -> native_outcome;
  w_http_available : bool;
  w_native_available : bool;
  w_traceback : string
}.

(** A transport call, as recorded in the trace of the gateway. *)
Inductive call : Type :=
| CallHttp (req : HttpRequest)
| CallNative (query : string)
| CallNativeTemp (query : string).

(** ** The query gateway, main.py:67-174 *)

Module Gateway.

Definition allowed_prefixes : list string :=
  ["select"; "show"; "describe"; "desc"; "explain"].

Definition read_only_error (query : string) : string :=
  "Error: Only read operations (SELECT, SHOW, DESCRIBE, EXPLAIN) are allowed. Rejected query: "
  ++ query.

Definition multi_statement_error (query : string) : string :=
  "Error: Multiple statements are not allowed. Rejected query: " ++ query.

Definition no_connection_error : string :=
  "Error: Could not connect to ClickHouse database".

(** The read-only check, main.py:71-74. *)
Definition read_only_ok (query : string) : bool :=
  Py.startswith_any (Py.lower (Py.strip query)) allowed_prefixes.

(** The single-statement check, main.py:77-78. *)
Definition single_statement_ok (query : string) : bool :=
  negb (Py.contains ";" (Py.drop_last query)).

(** Statement validation, main.py:71-78: [None] when it passes, else the
    returned error text. *)
Definition validate (query : string) : option string :=
  if negb (read_only_ok query) then Some (read_only_error query)
  else if negb (single_statement_ok query) then Some (multi_statement_error query)
  else None.

Definition mode_label (m : option transport) : string :=
  match m with Some Http => "http" | Some Native => "native" | None => "None" end.

(** One HTTP execution with the failure turned into an exception,
    main.py:93-104 and 123-134. *)
Definition http_attempt (w : World) (cfg : DBConfig) (database query : string)
  (params : list (string * pyval)) (max_rows : nat) : outcome QueryResult * list call :=
  let r := Func.execute_http_query (w_http w) (cfg_host cfg) (cfg_http_port cfg) database
             query (cfg_username cfg) (cfg_password cfg) params max_rows in
  (if success r then Ok r
   else Raise (match error r with Some e => e | None => "None" end),
   [CallHttp (Func.http_request (cfg_host cfg) (cfg_http_port cfg) database query
                (cfg_username cfg) (cfg_password cfg) params max_rows)]).

(** The primary execution, main.py:89-113. *)
Definition primary_attempt (w : World) (cfg : DBConfig) (ctx : AppContext)
  (conn : DatabaseConnection) (query : string) (params : list (string * pyval))
  (max_rows : nat) : outcome QueryResult * list call :=
  let query_lower := Py.lower (Py.strip query) in
  match ctx_connection_mode ctx with
  | Some Http => http_attempt w cfg (dc_database conn) query params max_rows
  | _ =>
      (match w_native_conn w query params with
       | NativeFail e => Raise e
       | NativeRows rs => Ok (Func.process_native_result rs query_lower max_rows)
       end, [CallNative query])
  end.

(** [alternate_mode = "http" if connection_mode == "native" else "native"] *)
Definition alternate_mode (m : option transport) : transport :=
  match m with Some Native => Http | _ => Native end.

(** The one-shot alternate execution, main.py:117-156. *)
Definition alternate_attempt (w : World) (cfg : DBConfig) (ctx : AppContext)
  (conn : DatabaseConnection) (query : string) (params : list (string * pyval))
  (max_rows : nat) : outcome QueryResult * list call :=
  let query_lower := Py.lower (Py.strip query) in
  match alternate_mode (ctx_connection_mode ctx) with
  | Http =>
      if w_http_available w then http_attempt w cfg (dc_database conn) query params max_rows
      else (Raise "Alternate connection mode http not available", [])
  | Native =>
      if w_native_available w then
        (match w_native_temp w query params with
         | NativeFail e => Raise ("Native connection failed: " ++ e)
         | NativeRows rs => Ok (Func.process_native_result rs query_lower max_rows)
         end, [CallNativeTemp query])
      else (Raise "Alternate connection mode native not available", [])
  end.

(** The error text when both transports fail, main.py:161-165. *)
Definition both_failed_error (m : option transport) (primary_error alt_error : string)
  : string :=
  "Database error: " ++ "Primary connection (" ++ mode_label m ++ ") error: "
  ++ primary_error ++ Py.nl ++ "Alternate connection error: " ++ alt_error.

(** [format_query_results(result)] under the outer [except] of
    main.py:173-174. *)
Definition render (w : World) (r : QueryResult) : string :=
  match Format.format_query_results r with
  | Ok s => s
  | Raise e => "Database error: " ++ e ++ Py.nl ++ w_traceback w
  end.

(** [execute_db_query(query, params, max_rows)]: the returned text and
    the transport calls made, in order. *)
Definition execute_db_query (w : World) (cfg : DBConfig) (ctx : AppContext)
  (query : string) (params : list (string * pyval)) (max_rows : nat)
  : string * list call :=
  match validate query with
  | Some e => (e, [])
  | None =>
  match ctx_connection ctx with
  | None => (no_connection_error, [])
  | Some conn =>
  let '(p, t1) := primary_attempt w cfg ctx conn query params max_rows in
  match p with
  | Ok r => (render w r, t1)
  | Raise e1 =>
      let '(a, t2) := alternate_attempt w cfg ctx conn query params max_rows in
      match a with
      | Ok r => (render w r, t1 ++ t2)%list
      | Raise e2 => (both_failed_error (ctx_connection_mode ctx) e1 e2, t1 ++ t2)%list
      end
  end
  end
  end.

End Gateway.

(** ** Startup, lifespan_code.py:72-301 *)

Module Lifespan.

(** [str(json_err)] when [response.json()] rejects the body. *)
Definition json_decode_error : string := "Expecting value: line 1 column 1 (char 0)".

(** The module's own [execute_http_query], lifespan_code.py:72-156. *)
Definition execute_http_query (server : HttpRequest -> http_outcome)
  (host : string) (port : Z) (database query username password : string)
  (params : list (string * pyval)) (max_rows : nat) : QueryResult :=
  let query := match params with [] => query | _ => Func.substitute params query end in
  let req := mkRequest host port query username password database (Some "JSONCompact") None in
  match server req with
  | HttpFail e => failure_result e
  | HttpOk response =>
      let content_type := match resp_content_type response with Some c => c | None => EmptyString end in
      if Py.contains "json" (Py.lower content_type) then
        let parsed :=
          match resp_json response with
          | None => Raise json_decode_error
          | Some result =>
              let* d := PyVal.get result "data" (PList []) in
              let* n := PyVal.len d in
              Ok (mkResult true (Some d) None n [])
          end in
        match parsed with
        | Ok r => r
        | Raise e => failure_result ("Failed to parse JSON response: " ++ e)
        end
      else
        mkResult true (Some (PList [PList [PStr (Py.strip (resp_text response))]])) None 1
          [PStr "result"]
  end.

(** [HTTPConnection(...).execute(query)], lifespan_code.py:159-181. *)
Definition http_connection_execute (w : World) (cfg : DBConfig) (query : string)
  : outcome pyval :=
  let r := execute_http_query (w_http w) (cfg_host cfg) (cfg_http_port cfg) (cfg_database cfg)
             query (cfg_username cfg) (cfg_password cfg) [] (cfg_max_rows cfg) in
  if success r then Ok (match data r with Some d => d | None => PNone end)
  else Raise (match error r with Some e => e | None => "None" end).

(** The raw connectivity request of the HTTP probe, lifespan_code.py:199-209. *)
Definition probe_request (cfg : DBConfig) : HttpRequest :=
  mkRequest (cfg_host cfg) (cfg_http_port cfg) "SELECT 1" (cfg_username cfg)
    (cfg_password cfg) (cfg_database cfg) None None.

(** The startup half of [app_lifespan] (up to its [yield]),
    lifespan_code.py:187-301: the [AppContext] it leaves behind, from the
    one it finds.  [DatabaseConnection(...)] is taken not to raise: its
    fields are a string and a transport name. *)
Definition app_lifespan_startup (w : World) (cfg : DBConfig) (ctx : AppContext)
  : AppContext :=
  let '(conn, connection_mode) :=
    if w_http_available w then
      match w_http w (probe_request cfg) with
      | HttpFail _ => (None, None)
      | HttpOk _ =>
          match http_connection_execute w cfg "SELECT 1" with
          | Ok _ => (Some (mkConnection (cfg_database cfg) Http), Some Http)
          | Raise _ => (None, None)
          end
      end
    else (None, None) in
  match connection_mode with
  | None =>
      if w_native_available w then
        let '(conn', mode') :=
          match w_native_conn w "SELECT 1" [] with
          | NativeFail _ => (conn, connection_mode)
          | NativeRows _ => (Some (mkConnection (cfg_database cfg) Native), Some Native)
          end in
        mkContext conn' mode'
      else ctx
  | Some _ => ctx
  end.

(** The shutdown half of [app_lifespan] (after its [yield]),
    lifespan_code.py:306-330: the context it leaves and the calls it makes
    on the connection handle.  The handle of a native connection is a
    [clickhouse_driver.Client], which has [disconnect]; an exception raised
    there is logged and the cleanup goes on. *)
Inductive teardown_action : Type := DisconnectNative.

Definition app_lifespan_shutdown (ctx : AppContext) : AppContext * list teardown_action :=
  match ctx_connection ctx with
  | None => (ctx, [])
  | Some c =>
      (mkContext None None,
       match dc_connection_type c with Native => [DisconnectNative] | Http => [] end)
  end.

End Lifespan.

(** ** Predicates the properties are stated with *)

(** The leading keywords of write statements. *)
Definition write_keywords : list string :=
  ["insert"; "update"; "delete"; "drop"; "alter"; "create"].

(** [len(result["data"])], when [data] is a sized value. *)
Definition data_length (r : QueryResult) : option nat :=
  match data r with
  | Some d => match PyVal.len d with Ok n => Some n | Raise _ => None end
  | None => None
  end.

(** The coupling of the fields of a result dictionary. *)
Definition coupled (r : QueryResult) : Prop :=
  (success r = true -> error r = None) /\
  (success r = false -> data r = None /\ row_count r = 0 /\ column_names r = []).

(** Truncation: [len(data)] is the row count cut at [max_rows]. *)
Definition truncated_to (max_rows : nat) (r : QueryResult) : Prop :=
  success r = true -> data_length r = Some (Nat.min (row_count r) max_rows).

(** [len(result["data"]) <= max_rows] for a successful result. *)
Definition within (max_rows : nat) (r : QueryResult) : Prop :=
  success r = true -> exists n, data_length r = Some n /\ n <= max_rows.

(** The gateway run with transport [t] as its only, primary, transport:
    the connection mode is [t] and, for the native transport, the client
    is the one the fallback path would construct. *)
Definition as_primary (w : World) (ctx : AppContext) (t : transport) : World * AppContext :=
  (match t with
   | Native => mkWorld (w_http w) (w_native_temp w) (w_native_temp w)
                 (w_http_available w) (w_native_available w) (w_traceback w)
   | Http => w
   end, mkContext (ctx_connection ctx) (Some t)).

(** The number of cells of the first non-blank line that holds a tab. *)
Fixpoint first_tab_width (lines : list string) : option nat :=
  match lines with
  | [] => None
  | line :: rest =>
      if String.eqb (Py.strip line) EmptyString then first_tab_width rest
      else if Py.contains Py.tab line then Some (List.length (Py.split Py.tab_char line))
      else first_tab_width rest
  end.

(** The names [column_1 ... column_k]. *)
Definition tsv_column_names (k : nat) : list pyval :=
  map (fun i => PStr ("column_" ++ Py.str_nat (i + 1))) (seq 0 k).

(** [k in d] for a dictionary [d]. *)
Definition has_key (k : string) (kv : list (string * pyval)) : bool :=
  existsb (fun '(k', _) => String.eqb k k') kv.

(** The filter of func.py:129: the lines that are not blank. *)
Definition nonblank (l : string) : bool := negb (String.eqb (Py.strip l) EmptyString).

(** ** Concrete collaborators, used to evaluate the model *)

Module Examples.

Definition cfg : DBConfig := mkConfig "localhost" 9000 8123 "default" "default" EmptyString 10.

(** What a ClickHouse server answers to a [JSONCompact] [SELECT 1]. *)
Definition select1_json : Response :=
  mkResponse (Some "application/json; charset=UTF-8")
    (let q k := Py.dquote ++ k ++ Py.dquote in
     "{" ++ q "meta" ++ ":[{" ++ q "name" ++ ":" ++ q "1" ++ "," ++ q "type" ++ ":"
     ++ q "UInt8" ++ "}]," ++ q "data" ++ ":[[1]]," ++ q "rows" ++ ":1}")
    (Some (PDict [("meta", PList [PDict [("name", PStr "1"); ("type", PStr "UInt8")]]);
                  ("data", PList [PList [PInt 1%Z]]);
                  ("rows", PInt 1%Z)])).

Definition refused : string := "Connection refused".

(** Both transports up. *)
Definition world_up : World :=
  mkWorld (fun _ => HttpOk select1_json)
    (fun _ _ => NativeRows (PList [PTuple [PInt 1%Z]]))
    (fun _ _ => NativeRows (PList [PTuple [PInt 1%Z]]))
    true true "Traceback".

(** The HTTP port refuses connections; the native port answers. *)
Definition world_http_down : World :=
  mkWorld (fun _ => HttpFail refused)
    (fun _ _ => NativeFail refused)
    (fun _ _ => NativeRows (PList [PTuple [PInt 1%Z]]))
    true true "Traceback".

(** Both ports refuse connections. *)
Definition world_down : World :=
  mkWorld (fun _ => HttpFail refused)
    (fun _ _ => NativeFail "Code: 210. Connection refused (localhost:9000)")
    (fun _ _ => NativeFail "Code: 210. Connection refused (localhost:9000)")
    true true "Traceback".

Definition ctx_http : AppContext :=
  mkContext (Some (mkConnection "default" Http)) (Some Http).

Definition ctx_native : AppContext :=
  mkContext (Some (mkConnection "default" Native)) (Some Native).

(** The HTTP port refuses connections; both native clients answer. *)
Definition world_native_up : World :=
  mkWorld (fun _ => HttpFail refused)
    (fun _ _ => NativeRows (PList [PTuple [PInt 1%Z]]))
    (fun _ _ => NativeRows (PList [PTuple [PInt 1%Z]]))
    true true "Traceback".

(** The HTTP port refuses connections and the native driver is not installed. *)
Definition world_http_only : World :=
  mkWorld (fun _ => HttpFail refused)
    (fun _ _ => NativeFail "No module named 'clickhouse_driver'")
    (fun _ _ => NativeFail "No module named 'clickhouse_driver'")
    true false "Traceback".

(** A [TabSeparated] answer: a one-cell line, a blank line, then two
    two-cell rows. *)
Definition tsv_answer : Response :=
  mkResponse (Some "text/tab-separated-values; charset=UTF-8")
    ("total" ++ Py.nl ++ Py.nl ++ "1" ++ Py.tab ++ "a" ++ Py.nl ++ "2" ++ Py.tab ++ "b")
    None.

End Examples.

(** * Properties *)

(** ** String lemmas *)

Lemma prefix_refl_app : forall p s, String.prefix p (p ++ s) = true.
Proof.
  induction p as [|c p IH]; intros s; simpl; [destruct s; reflexivity|].
  destruct (ascii_dec c c) as [_|n]; [apply IH | contradiction].
Qed.

Lemma contains_of_prefix : forall p s, String.prefix p s = true -> Py.contains p s = true.
Proof. intros p s H; destruct s; cbn [Py.contains]; rewrite H; reflexivity. Qed.

Lemma contains_cons : forall p c s, Py.contains p s = true -> Py.contains p (String c s) = true.
Proof. intros p c s H; simpl; rewrite H, orb_true_r; reflexivity. Qed.

Lemma contains_app_mid : forall p a b, Py.contains p (a ++ p ++ b) = true.
Proof.
  intros p a b; induction a as [|c a IH]; simpl.
  - apply contains_of_prefix, prefix_refl_app.
  - apply contains_cons, IH.
Qed.

Lemma drop_last_snoc : forall s c, Py.drop_last (s ++ String c EmptyString) = s.
Proof.
  induction s as [|d s IH]; intros c; [reflexivity|].
  simpl. rewrite IH. destruct s; reflexivity.
Qed.

Lemma drop_last_cons : forall c s, s <> EmptyString ->
  Py.drop_last (String c s) = String c (Py.drop_last s).
Proof. intros c s H; destruct s; [contradiction|reflexivity]. Qed.

Lemma drop_last_mid : forall a c b, b <> EmptyString ->
  Py.drop_last (a ++ String c b) = a ++ String c (Py.drop_last b).
Proof.
  induction a as [|d a IH]; intros c b Hb.
  - apply drop_last_cons; exact Hb.
  - change ((String d a ++ String c b)%string) with (String d (a ++ String c b)).
    rewrite drop_last_cons by (destruct a; discriminate).
    rewrite IH by exact Hb. reflexivity.
Qed.

Lemma prefix_compat : forall s p q,
  String.prefix p s = true -> String.prefix q s = true ->
  String.prefix p q = true \/ String.prefix q p = true.
Proof.
  induction s as [|c s IH]; intros p q Hp Hq.
  - destruct p; [left; destruct q; reflexivity|discriminate].
  - destruct p as [|a p]; [left; destruct q; reflexivity|].
    destruct q as [|b q]; [right; reflexivity|].
    simpl in Hp, Hq.
    destruct (ascii_dec a c) as [->|]; [|discriminate].
    destruct (ascii_dec b c) as [->|]; [|discriminate].
    simpl. destruct (ascii_dec c c) as [_|n]; [|contradiction].
    apply IH; assumption.
Qed.

Lemma take_length : forall n s, String.length (Py.take n s) = Nat.min n (String.length s).
Proof.
  unfold Py.take. intros n s; revert n.
  induction s as [|c s IH]; intros [|n]; simpl; try reflexivity.
  rewrite IH. reflexivity.
Qed.

(** ** Statement validation *)

Lemma write_keyword_not_read_only : forall query,
  Py.startswith_any (Py.lower (Py.strip query)) write_keywords = true ->
  Gateway.read_only_ok query = false.
Proof.
  intros query H. unfold Gateway.read_only_ok, Py.startswith_any, Py.startswith in *.
  set (s := Py.lower (Py.strip query)) in *.
  apply existsb_exists in H. destruct H as [p [Hp Hps]].
  apply not_true_is_false. intro H.
  apply existsb_exists in H. destruct H as [a [Ha Has]].
  destruct (prefix_compat s p a Hps Has) as [E|E];
  simpl in Hp, Ha;
  repeat (destruct Hp as [<-|Hp]); try contradiction;
  repeat (destruct Ha as [<-|Ha]); try contradiction; discriminate E.
Qed.

Lemma validate_rejects_without_call : forall w cfg ctx query params max_rows e,
  Gateway.validate query = Some e ->
  Gateway.execute_db_query w cfg ctx query params max_rows = (e, []).
Proof. intros w cfg ctx query params max_rows e H. unfold Gateway.execute_db_query. rewrite H. reflexivity. Qed.

(** C1 (amended): the read-only check of [execute_db_query] is a textual
    prefix test on the trimmed, lower-cased query.  A query that passes it
    passes validation exactly when it also passes the single-statement
    check; a query that fails it (in particular one starting with insert,
    update, delete, drop, alter or create) gets the read-only error and no
    transport call is made. *)
Theorem C1_read_only_check : forall w cfg ctx query params max_rows,
  (Gateway.read_only_ok query = true ->
     (Gateway.validate query = None <-> Gateway.single_statement_ok query = true)) /\
  (Gateway.read_only_ok query = false ->
     Gateway.execute_db_query w cfg ctx query params max_rows
     = (Gateway.read_only_error query, [])) /\
  (Py.startswith_any (Py.lower (Py.strip query)) write_keywords = true ->
     Gateway.execute_db_query w cfg ctx query params max_rows
     = (Gateway.read_only_error query, [])).
Proof.
  intros w cfg ctx query params max_rows.
  assert (Hro : Gateway.read_only_ok query = false ->
                Gateway.execute_db_query w cfg ctx query params max_rows
                = (Gateway.read_only_error query, [])).
  { intro H. apply validate_rejects_without_call.
    unfold Gateway.validate. rewrite H. reflexivity. }
  split; [|split].
  - intro H. unfold Gateway.validate. rewrite H. simpl.
    destruct (Gateway.single_statement_ok query); simpl; split; congruence.
  - exact Hro.
  - intro H. apply Hro, write_keyword_not_read_only, H.
Qed.

Lemma C1_witness :
  Gateway.validate "  SELECT 1;" = None /\
  Gateway.execute_db_query Examples.world_up Examples.cfg Examples.ctx_http
    "DROP TABLE t" [] 10 = (Gateway.read_only_error "DROP TABLE t", []) /\
  Gateway.execute_db_query Examples.world_up Examples.cfg Examples.ctx_http
    " Insert INTO t VALUES (1)" [] 10
  = (Gateway.read_only_error " Insert INTO t VALUES (1)", []).
Proof.
  split; [|split].
  - apply (proj1 (C1_read_only_check Examples.world_up Examples.cfg Examples.ctx_http
                    "  SELECT 1;" [] 10)); reflexivity.
  - apply (proj1 (proj2 (C1_read_only_check Examples.world_up Examples.cfg
                           Examples.ctx_http "DROP TABLE t" [] 10))); reflexivity.
  - apply (proj2 (proj2 (C1_read_only_check Examples.world_up Examples.cfg
                           Examples.ctx_http " Insert INTO t VALUES (1)" [] 10)));
      reflexivity.
Defined.

(** C1 is false as stated: a query beginning with select can still fail
    validation, on its second statement. *)
Lemma C1_counterexample :
  Py.startswith_any (Py.lower (Py.strip "SELECT 1; DROP TABLE t")) Gateway.allowed_prefixes = true
  /\ Gateway.validate "SELECT 1; DROP TABLE t"
     = Some (Gateway.multi_statement_error "SELECT 1; DROP TABLE t").
Proof. split; reflexivity. Qed.

(** C2 (amended): a query with a ';' before its last character is rejected
    with no transport call: with the multiple-statements error when it
    passes the read-only check, with the read-only error (checked first)
    otherwise.  A query whose only ';' is its last character passes the
    single-statement check. *)
Theorem C2_semicolon_check : forall w cfg ctx a b params max_rows,
  b <> EmptyString ->
  Gateway.execute_db_query w cfg ctx (a ++ ";" ++ b) params max_rows
  = (if Gateway.read_only_ok (a ++ ";" ++ b)
     then Gateway.multi_statement_error (a ++ ";" ++ b)
     else Gateway.read_only_error (a ++ ";" ++ b), []) /\
  (Py.contains ";" a = false -> Gateway.single_statement_ok (a ++ ";") = true).
Proof.
  intros w cfg ctx a b params max_rows Hb. split.
  - apply validate_rejects_without_call. unfold Gateway.validate.
    destruct (Gateway.read_only_ok (a ++ ";" ++ b)); simpl; [|reflexivity].
    unfold Gateway.single_statement_ok.
    change (";" ++ b) with (String ";" b).
    rewrite drop_last_mid by exact Hb.
    change (String ";" (Py.drop_last b)) with (";" ++ Py.drop_last b).
    rewrite contains_app_mid. reflexivity.
  - intro Ha. unfold Gateway.single_statement_ok.
    change (";") with (String ";" EmptyString). rewrite drop_last_snoc, Ha. reflexivity.
Qed.

Lemma C2_witness :
  Gateway.execute_db_query Examples.world_up Examples.cfg Examples.ctx_http
    "SELECT 1; DROP TABLE t" [] 10
  = (Gateway.multi_statement_error "SELECT 1; DROP TABLE t", []) /\
  Gateway.single_statement_ok "SELECT 1;" = true.
Proof.
  destruct (C2_semicolon_check Examples.world_up Examples.cfg Examples.ctx_http
              "SELECT 1" " DROP TABLE t" [] 10 ltac:(discriminate)) as [H1 H2].
  split; [exact H1 | apply H2; reflexivity].
Defined.

(** C2 is false as stated: a multi-statement query whose first keyword is
    not read-only gets the read-only error, not the multiple-statements one. *)
Lemma C2_counterexample :
  Py.contains ";" (Py.drop_last "DROP TABLE t; SELECT 1") = true /\
  Gateway.execute_db_query Examples.world_up Examples.cfg Examples.ctx_http
    "DROP TABLE t; SELECT 1" [] 10
  = (Gateway.read_only_error "DROP TABLE t; SELECT 1", []) /\
  Gateway.read_only_error "DROP TABLE t; SELECT 1"
  <> Gateway.multi_statement_error "DROP TABLE t; SELECT 1".
Proof. split; [reflexivity| split; [reflexivity| discriminate]]. Qed.

(** ** Parameter substitution *)

Lemma substitute_no_placeholder : forall params query,
  (forall k v, In (k, v) params -> Py.contains ("{" ++ k ++ "}") query = false) ->
  Func.substitute params query = query.
Proof.
  unfold Func.substitute. induction params as [|[k v] r IH]; intros query H; [reflexivity|].
  cbn [fold_left]. rewrite (H k v (or_introl eq_refl)).
  apply IH. intros k' v' Hin. exact (H k' v' (or_intror Hin)).
Qed.

(** C9: with no [{name}] placeholder of the parameters in it, the query
    sent over HTTP is the query text unchanged; a present [{p}] is
    replaced by ['x'] for the string "x" and by [5] for the integer 5. *)
Theorem C9_substitution :
  (forall host port database query username password params max_rows,
     (forall k v, In (k, v) params -> Py.contains ("{" ++ k ++ "}") query = false) ->
     req_query (Func.http_request host port database query username password params max_rows)
     = query) /\
  (forall query, Py.contains "{p}" query = true ->
     Func.substitute [("p", PStr "x")] query = Py.replace "{p}" "'x'" query /\
     Func.substitute [("p", PInt 5%Z)] query = Py.replace "{p}" "5" query) /\
  Func.substitute [("p", PStr "x")] "SELECT * FROM t WHERE a = {p} OR b = {p}"
  = "SELECT * FROM t WHERE a = 'x' OR b = 'x'" /\
  Func.substitute [("p", PInt 5%Z)] "SELECT * FROM t WHERE a = {p}"
  = "SELECT * FROM t WHERE a = 5".
Proof.
  split; [|split; [|split]].
  - intros host port database query username password params max_rows H.
    unfold Func.http_request. simpl.
    destruct params; [reflexivity|]. apply substitute_no_placeholder, H.
  - intros query H. unfold Func.substitute. simpl. rewrite H. split; reflexivity.
  - reflexivity.
  - reflexivity.
Qed.

Lemma C9_witness :
  req_query (Func.http_request "localhost" 8123 "default" "SELECT {q}" "default" EmptyString
               [("p", PStr "x")] 10) = "SELECT {q}" /\
  Func.substitute [("p", PStr "x")] "SELECT {p}" = Py.replace "{p}" "'x'" "SELECT {p}".
Proof.
  split.
  - apply (proj1 C9_substitution). intros k v [E|[]]. injection E as <- <-. reflexivity.
  - apply (proj1 (proj2 C9_substitution)). reflexivity.
Defined.

(** ** Shape of the normalized results *)

Ltac split_goal_matches :=
  repeat match goal with
  | |- context [match ?x with _ => _ end] => destruct x eqn:?
  | |- context [if ?b then _ else _] => destruct b eqn:?
  end.

Ltac crunch_binds :=
  repeat match goal with
  | H : bind ?m _ = _ |- _ => destruct m eqn:?; cbn [bind] in H; try discriminate H
  | H : Ok _ = Ok _ |- _ => injection H as <-
  | H : (if ?b then _ else _) = _ |- _ => destruct b eqn:?
  | H : match ?x with _ => _ end = _ |- _ => destruct x eqn:?; cbn iota beta in H; try discriminate H
  end.

Lemma coupled_failure : forall e, coupled (failure_result e).
Proof. intros e; split; intro H; [discriminate H | repeat split]. Qed.

Lemma coupled_success : forall d n cols, coupled (mkResult true d None n cols).
Proof. intros d n cols; split; intro H; [reflexivity | discriminate H]. Qed.

Lemma truncated_empty : forall m, truncated_to m empty_success.
Proof. intros m _. reflexivity. Qed.

Lemma truncated_single : forall m s, 1 <= m -> truncated_to m (Func.single_value s).
Proof. intros m s Hm _. unfold data_length; simpl. destruct m; [lia | reflexivity]. Qed.

Lemma truncated_firstn : forall m l cols,
  truncated_to m (mkResult true (Some (PList (firstn m l))) None (List.length l) cols).
Proof.
  intros m l cols _. unfold data_length; simpl. rewrite length_firstn, Nat.min_comm.
  reflexivity.
Qed.

Lemma truncated_map_firstn : forall m (f : pyval -> pyval) (l : list pyval) cols,
  truncated_to m (mkResult true (Some (PList (map f (firstn m l)))) None (List.length l) cols).
Proof.
  intros m f l cols _. unfold data_length; simpl.
  rewrite length_map, length_firstn, Nat.min_comm. reflexivity.
Qed.

Lemma truncated_map_firstn_str : forall m (f : string -> pyval) (l : list string) cols,
  truncated_to m (mkResult true (Some (PList (map f (firstn m l)))) None (List.length l) cols).
Proof.
  intros m f l cols _. unfold data_length; simpl.
  rewrite length_map, length_firstn, Nat.min_comm. reflexivity.
Qed.

Lemma slice_len : forall v m d n,
  PyVal.slice_to v m = Ok d -> PyVal.len v = Ok n -> PyVal.len d = Ok (Nat.min n m).
Proof.
  intros v m d n Hs Hl.
  destruct v; simpl in Hs, Hl; try discriminate; injection Hs as <-; injection Hl as <-;
    simpl; f_equal.
  - rewrite take_length. apply Nat.min_comm.
  - rewrite length_firstn. apply Nat.min_comm.
  - rewrite length_firstn. apply Nat.min_comm.
Qed.

(** [process_clickhouse_result]: the payload's [data], its length as
    [row_count] and its slice as [data]; or the empty result. *)
Lemma clickhouse_result_shape : forall v m r,
  Func.process_clickhouse_result v m = Ok r ->
  r = empty_success \/
  exists rows d,
    PyVal.get v "data" (PList []) = Ok rows /\ PyVal.len rows = Ok (row_count r) /\
    PyVal.slice_to rows m = Ok d /\ data r = Some d /\
    success r = true /\ error r = None.
Proof.
  intros v m r H. unfold Func.process_clickhouse_result in H.
  crunch_binds; try (left; reflexivity).
  all: right; do 2 eexists; repeat split; eassumption.
Qed.

Lemma clickhouse_result_truncated : forall v m r,
  Func.process_clickhouse_result v m = Ok r -> truncated_to m r.
Proof.
  intros v m r H.
  destruct (clickhouse_result_shape v m r H) as [->|(rows & d & _ & Hl & Hs & Hd & _)].
  - apply truncated_empty.
  - intros _. unfold data_length. rewrite Hd, (slice_len rows m d (row_count r) Hs Hl).
    reflexivity.
Qed.

Lemma clickhouse_result_coupled : forall v m r,
  Func.process_clickhouse_result v m = Ok r -> coupled r.
Proof.
  intros v m r H.
  destruct (clickhouse_result_shape v m r H) as [->|(rows & d & _ & _ & _ & _ & Hs & He)].
  - apply coupled_success.
  - split; intro; [exact He | congruence].
Qed.

Ltac close_result :=
  first
  [ eapply clickhouse_result_truncated; eassumption
  | eapply clickhouse_result_coupled; eassumption
  | apply truncated_empty
  | apply truncated_single; assumption
  | apply truncated_firstn
  | apply truncated_map_firstn
  | apply truncated_map_firstn_str
  | apply coupled_failure
  | apply coupled_success
  | intro; discriminate ].

Lemma clickhouse_response_truncated : forall resp m, 1 <= m ->
  truncated_to m (Func.process_clickhouse_response resp m).
Proof.
  intros resp m Hm. unfold Func.process_clickhouse_response. cbv beta zeta.
  split_goal_matches; close_result.
Qed.

Lemma clickhouse_response_coupled : forall resp m,
  coupled (Func.process_clickhouse_response resp m).
Proof.
  intros resp m. unfold Func.process_clickhouse_response, empty_success, Func.single_value.
  cbv beta zeta. split_goal_matches; close_result.
Qed.

Lemma native_result_truncated : forall rs ql m, 1 <= m ->
  truncated_to m (Func.process_native_result rs ql m).
Proof.
  intros rs ql m Hm. unfold Func.process_native_result. cbv beta zeta.
  split_goal_matches; close_result.
Qed.

Lemma native_result_success : forall rs ql m,
  success (Func.process_native_result rs ql m) = true /\
  error (Func.process_native_result rs ql m) = None.
Proof.
  intros rs ql m. unfold Func.process_native_result, empty_success, Func.single_value.
  cbv beta zeta. split_goal_matches; split; reflexivity.
Qed.

Lemma native_result_coupled : forall rs ql m, coupled (Func.process_native_result rs ql m).
Proof.
  intros rs ql m. destruct (native_result_success rs ql m) as [Hs He].
  split; intro; [exact He | congruence].
Qed.

Lemma http_query_cases : forall server host port database query username password params m,
  let r := Func.execute_http_query server host port database query username password params m in
  (exists e, r = failure_result e) \/
  (exists resp, r = Func.process_clickhouse_response resp m).
Proof.
  intros. subst r. unfold Func.execute_http_query.
  destruct server; [left | right]; eexists; reflexivity.
Qed.

Lemma http_query_truncated : forall server host port database query username password params m,
  1 <= m ->
  truncated_to m (Func.execute_http_query server host port database query username password params m).
Proof.
  intros. destruct (http_query_cases server host port database query username password params m)
    as [[e ->]|[resp ->]].
  - intro; discriminate.
  - apply clickhouse_response_truncated; assumption.
Qed.

Lemma http_query_coupled : forall server host port database query username password params m,
  coupled (Func.execute_http_query server host port database query username password params m).
Proof.
  intros. destruct (http_query_cases server host port database query username password params m)
    as [[e ->]|[resp ->]].
  - apply coupled_failure.
  - apply clickhouse_response_coupled.
Qed.

Lemma lifespan_http_query_coupled :
  forall server host port database query username password params m,
  coupled (Lifespan.execute_http_query server host port database query username password params m).
Proof.
  intros. unfold Lifespan.execute_http_query. cbv beta zeta.
  split_goal_matches; try apply coupled_failure; try apply coupled_success;
  crunch_binds; apply coupled_success.
Qed.

Lemma truncated_within : forall m r, truncated_to m r -> within m r.
Proof. intros m r H Hs. exists (Nat.min (row_count r) m). split; [apply H, Hs | lia]. Qed.

(** C4: every successful result of the HTTP client and of the three
    normalizers holds at most [max_rows] rows, for [max_rows] in [1, 100]. *)
Theorem C4_rows_at_most_max : forall max_rows, 1 <= max_rows <= 100 ->
  (forall resp, within max_rows (Func.process_clickhouse_response resp max_rows)) /\
  (forall v r, Func.process_clickhouse_result v max_rows = Ok r -> within max_rows r) /\
  (forall rs ql, within max_rows (Func.process_native_result rs ql max_rows)) /\
  (forall server host port database query username password params,
     within max_rows
       (Func.execute_http_query server host port database query username password params
          max_rows)).
Proof.
  intros m [Hm _]. split; [|split; [|split]]; intros; apply truncated_within.
  - apply clickhouse_response_truncated, Hm.
  - eapply clickhouse_result_truncated; eassumption.
  - apply native_result_truncated, Hm.
  - apply http_query_truncated, Hm.
Qed.

Lemma C4_witness :
  within 2 (Func.process_native_result (PList [PTuple [PInt 1%Z]; PTuple [PInt 2%Z];
                                               PTuple [PInt 3%Z]]) "select x from t" 2).
Proof. apply (C4_rows_at_most_max 2 ltac:(lia)). Defined.




(** C8 (amended): the native result set [1] for "SELECT 1" is a list of
    scalar rows: it normalizes to one row holding the scalar 1 under the
    synthetic column name column_0.  More generally, outside show/describe
    queries, every non-empty list whose first row is a scalar (not a list,
    tuple or dict) gets the single name column_0; the column named result,
    holding [str(result_set)], is what every truthy native result that is
    not a list gets, such as a bare 1. *)
Theorem C8_native_select_one : forall max_rows, 1 <= max_rows ->
  Func.process_native_result (PList [PInt 1%Z]) (Py.lower (Py.strip "SELECT 1")) max_rows
  = mkResult true (Some (PList [PInt 1%Z])) None 1 [PStr "column_0"] /\
  Func.process_native_result (PInt 1%Z) (Py.lower (Py.strip "SELECT 1")) max_rows
  = mkResult true (Some (PList [PList [PStr "1"]])) None 1 [PStr "result"] /\
  (forall x rest query_lower,
     PyVal.is_list_or_tuple x = false -> PyVal.is_dict x = false ->
     Py.startswith_any query_lower ["show"; "describe"; "desc"] = false ->
     column_names (Func.process_native_result (PList (x :: rest)) query_lower max_rows)
     = [PStr "column_0"]) /\
  (forall result_set query_lower,
     PyVal.truthy result_set = true -> (forall l, result_set <> PList l) ->
     Func.process_native_result result_set query_lower max_rows
     = mkResult true (Some (PList [PList [PStr (PyVal.str result_set)]])) None 1
         [PStr "result"]).
Proof.
  intros max_rows Hm.
  refine (conj _ (conj _ (conj _ _))).
  - destruct max_rows as [|[|m]]; [lia | reflexivity | reflexivity].
  - reflexivity.
  - intros x rest ql Hl Hd Hs. unfold Func.process_native_result. cbv zeta.
    cbn [PyVal.truthy List.length negb Nat.eqb]. rewrite Hs.
    destruct x; try discriminate Hl; try discriminate Hd; reflexivity.
  - intros rs ql Ht Hn. unfold Func.process_native_result. rewrite Ht. cbn [negb].
    destruct rs; try reflexivity. destruct (Hn l eq_refl).
Qed.

Lemma C8_witness :
  Func.process_native_result (PList [PInt 1%Z]) "select 1" 10
  = mkResult true (Some (PList [PInt 1%Z])) None 1 [PStr "column_0"] /\
  column_names (Func.process_native_result (PList [PStr "a"; PStr "b"]) "select s from t" 10)
  = [PStr "column_0"] /\
  Func.process_native_result (PStr "ok") "select 'ok'" 10
  = mkResult true (Some (PList [PList [PStr "ok"]])) None 1 [PStr "result"].
Proof.
  destruct (C8_native_select_one 10 ltac:(lia)) as (H1 & _ & H3 & H4).
  split; [exact H1|split].
  - apply H3; reflexivity.
  - apply (H4 (PStr "ok")); [reflexivity | discriminate].
Defined.

(** C8 is false as stated: the only column is not named result. *)
Lemma C8_counterexample :
  column_names (Func.process_native_result (PList [PInt 1%Z])
                  (Py.lower (Py.strip "SELECT 1")) 10) <> [PStr "result"].
Proof. vm_compute. discriminate. Qed.

(** C10: every result dictionary of the two HTTP clients and of the three
    normalizers couples its fields: success implies no error; failure
    implies no data, a zero row count and no column names. *)
Theorem C10_result_fields_coupled :
  (forall server host port database query username password params max_rows,
     coupled (Func.execute_http_query server host port database query username password
                params max_rows)) /\
  (forall server host port database query username password params max_rows,
     coupled (Lifespan.execute_http_query server host port database query username password
                params max_rows)) /\
  (forall resp max_rows, coupled (Func.process_clickhouse_response resp max_rows)) /\
  (forall v max_rows r, Func.process_clickhouse_result v max_rows = Ok r -> coupled r) /\
  (forall rs ql max_rows, coupled (Func.process_native_result rs ql max_rows)).
Proof.
  split; [|split; [|split; [|split]]].
  - apply http_query_coupled.
  - apply lifespan_http_query_coupled.
  - apply clickhouse_response_coupled.
  - apply clickhouse_result_coupled.
  - apply native_result_coupled.
Qed.

Lemma C10_witness :
  coupled (Func.execute_http_query (w_http Examples.world_down) "localhost" 8123 "default"
             "SELECT 1" "default" EmptyString [] 10) /\
  (forall r, Func.process_clickhouse_result (PDict [("data", PInt 5%Z)]) 10 = Ok r -> coupled r).
Proof.
  destruct C10_result_fields_coupled as (H1 & _ & _ & H4 & _).
  split; [apply H1 | intro r; apply H4].
Defined.

(** ** The gateway's fallback *)

Lemma str_append_assoc : forall a b c : string, (a ++ b) ++ c = a ++ (b ++ c).
Proof. induction a as [|x a IH]; intros b c; simpl; [reflexivity | rewrite IH; reflexivity]. Qed.

Lemma str_append_empty : forall a : string, a ++ EmptyString = a.
Proof. induction a as [|x a IH]; simpl; [reflexivity | rewrite IH; reflexivity]. Qed.

Lemma contains_app_end : forall p a, Py.contains p (a ++ p) = true.
Proof.
  intros p a. rewrite <- (str_append_empty p) at 2. apply contains_app_mid.
Qed.

Lemma exec_primary_ok : forall w cfg ctx conn query params max_rows r t1,
  ctx_connection ctx = Some conn -> Gateway.validate query = None ->
  Gateway.primary_attempt w cfg ctx conn query params max_rows = (Ok r, t1) ->
  Gateway.execute_db_query w cfg ctx query params max_rows = (Gateway.render w r, t1).
Proof.
  intros w cfg ctx conn query params max_rows r t1 Hc Hv Hp.
  unfold Gateway.execute_db_query. rewrite Hv, Hc, Hp. reflexivity.
Qed.

Lemma exec_after_fallback : forall w cfg ctx conn query params max_rows e1 t1 a t2,
  ctx_connection ctx = Some conn -> Gateway.validate query = None ->
  Gateway.primary_attempt w cfg ctx conn query params max_rows = (Raise e1, t1) ->
  Gateway.alternate_attempt w cfg ctx conn query params max_rows = (a, t2) ->
  Gateway.execute_db_query w cfg ctx query params max_rows
  = (match a with
     | Ok r => Gateway.render w r
     | Raise e2 => Gateway.both_failed_error (ctx_connection_mode ctx) e1 e2
     end, t1 ++ t2)%list.
Proof.
  intros w cfg ctx conn query params max_rows e1 t1 a t2 Hc Hv Hp Ha.
  unfold Gateway.execute_db_query. rewrite Hv, Hc, Hp. cbv beta iota. rewrite Ha.
  destruct a; reflexivity.
Qed.

Lemma http_attempt_ok : forall w cfg database query params max_rows r t,
  Gateway.http_attempt w cfg database query params max_rows = (Ok r, t) ->
  success r = true /\ error r = None.
Proof.
  intros w cfg database query params max_rows r t H. unfold Gateway.http_attempt in H.
  match type of H with
  | (if success ?x then _ else _, _) = _ => destruct (success x) eqn:Hs
  end; [|discriminate H].
  injection H as <- _. split; [exact Hs|].
  apply (proj1 (http_query_coupled _ _ _ _ _ _ _ _ _)), Hs.
Qed.

(** C5: when the primary transport fails and the alternate one succeeds,
    the gateway returns what it would return with the alternate transport
    as its only (primary) transport, and that result is a success with no
    error. *)
Theorem C5_fallback_equals_alternate_alone :
  forall w cfg ctx conn t query params max_rows e1 t1 r t2,
  ctx_connection ctx = Some conn ->
  ctx_connection_mode ctx = Some t ->
  Gateway.validate query = None ->
  Gateway.primary_attempt w cfg ctx conn query params max_rows = (Raise e1, t1) ->
  Gateway.alternate_attempt w cfg ctx conn query params max_rows = (Ok r, t2) ->
  let w' := fst (as_primary w ctx (Gateway.alternate_mode (Some t))) in
  let ctx' := snd (as_primary w ctx (Gateway.alternate_mode (Some t))) in
  fst (Gateway.execute_db_query w cfg ctx query params max_rows)
  = fst (Gateway.execute_db_query w' cfg ctx' query params max_rows) /\
  fst (Gateway.execute_db_query w cfg ctx query params max_rows) = Gateway.render w r /\
  success r = true /\ error r = None.
Proof.
  intros w cfg ctx conn t query params max_rows e1 t1 r t2 Hc Hm Hv Hp Ha w' ctx'.
  rewrite (exec_after_fallback w cfg ctx conn query params max_rows e1 t1 (Ok r) t2 Hc Hv Hp Ha).
  cbn [fst].
  assert (Hc' : ctx_connection ctx' = Some conn) by (subst ctx'; destruct t; exact Hc).
  unfold Gateway.alternate_attempt in Ha. rewrite Hm in Ha.
  destruct t; cbn [Gateway.alternate_mode] in Ha, w', ctx'.
  - (* primary HTTP, alternate native *)
    destruct (w_native_available w) eqn:Hn; [|discriminate Ha].
    destruct (w_native_temp w query params) as [e|rs] eqn:Ht; [discriminate Ha|].
    injection Ha as <- _.
    rewrite (exec_primary_ok w' cfg ctx' conn query params max_rows
               (Func.process_native_result rs (Py.lower (Py.strip query)) max_rows)
               [CallNative query] Hc' Hv).
    + split; [reflexivity|]. split; [reflexivity|]. apply native_result_success.
    + subst w' ctx'. unfold Gateway.primary_attempt. cbn. rewrite Ht. reflexivity.
  - (* primary native, alternate HTTP *)
    destruct (w_http_available w) eqn:Hh; [|discriminate Ha].
    destruct (Gateway.http_attempt w cfg (dc_database conn) query params max_rows)
      as [o th] eqn:Ht.
    injection Ha as -> ->.
    rewrite (exec_primary_ok w' cfg ctx' conn query params max_rows r t2 Hc' Hv).
    + split; [reflexivity|]. split; [reflexivity|]. eapply http_attempt_ok; exact Ht.
    + subst w' ctx'. exact Ht.
Qed.

Lemma C5_witness :
  fst (Gateway.execute_db_query Examples.world_http_down Examples.cfg Examples.ctx_http
         "SELECT 1" [] 10)
  = fst (Gateway.execute_db_query (fst (as_primary Examples.world_http_down Examples.ctx_http Native))
           Examples.cfg (snd (as_primary Examples.world_http_down Examples.ctx_http Native))
           "SELECT 1" [] 10).
Proof.
  refine (proj1 (C5_fallback_equals_alternate_alone Examples.world_http_down Examples.cfg
                   Examples.ctx_http (mkConnection "default" Http) Http "SELECT 1" [] 10
                   Examples.refused _ _ _ eq_refl eq_refl eq_refl eq_refl eq_refl)).
Defined.

(** C6: when both the primary execution and the one-shot alternate one
    fail, the returned text is the two failure messages in full, each
    after the label of its role. *)
Theorem C6_both_failures_reported :
  forall w cfg ctx conn query params max_rows e1 t1 e2 t2,
  ctx_connection ctx = Some conn ->
  Gateway.validate query = None ->
  Gateway.primary_attempt w cfg ctx conn query params max_rows = (Raise e1, t1) ->
  Gateway.alternate_attempt w cfg ctx conn query params max_rows = (Raise e2, t2) ->
  let out := fst (Gateway.execute_db_query w cfg ctx query params max_rows) in
  out = "Database error: Primary connection (" ++ Gateway.mode_label (ctx_connection_mode ctx)
        ++ ") error: " ++ e1 ++ Py.nl ++ "Alternate connection error: " ++ e2 /\
  Py.contains ("Primary connection (" ++ Gateway.mode_label (ctx_connection_mode ctx)
               ++ ") error: " ++ e1) out = true /\
  Py.contains ("Alternate connection error: " ++ e2) out = true.
Proof.
  intros w cfg ctx conn query params max_rows e1 t1 e2 t2 Hc Hv Hp Ha out.
  assert (E : out = Gateway.both_failed_error (ctx_connection_mode ctx) e1 e2).
  { subst out.
    rewrite (exec_after_fallback w cfg ctx conn query params max_rows e1 t1 (Raise e2) t2
               Hc Hv Hp Ha). reflexivity. }
  rewrite E. unfold Gateway.both_failed_error.
  split; [reflexivity | split].
  - set (lbl := Gateway.mode_label (ctx_connection_mode ctx)).
    replace ("Database error: " ++ "Primary connection (" ++ lbl ++ ") error: " ++ e1 ++ Py.nl
             ++ "Alternate connection error: " ++ e2)
      with ("Database error: " ++ ("Primary connection (" ++ lbl ++ ") error: " ++ e1)
            ++ (Py.nl ++ "Alternate connection error: " ++ e2))
      by (rewrite !str_append_assoc; reflexivity).
    apply contains_app_mid.
  - set (lbl := Gateway.mode_label (ctx_connection_mode ctx)).
    replace ("Database error: " ++ "Primary connection (" ++ lbl ++ ") error: " ++ e1 ++ Py.nl
             ++ "Alternate connection error: " ++ e2)
      with (("Database error: " ++ "Primary connection (" ++ lbl ++ ") error: " ++ e1 ++ Py.nl)
            ++ ("Alternate connection error: " ++ e2))
      by (rewrite !str_append_assoc; reflexivity).
    apply contains_app_end.
Qed.

Lemma C6_witness :
  fst (Gateway.execute_db_query Examples.world_down Examples.cfg Examples.ctx_http
         "SELECT 1" [] 10)
  = "Database error: Primary connection (http) error: " ++ Examples.refused ++ Py.nl
    ++ "Alternate connection error: Native connection failed: "
    ++ "Code: 210. Connection refused (localhost:9000)".
Proof.
  exact (proj1 (C6_both_failures_reported Examples.world_down Examples.cfg Examples.ctx_http
                  (mkConnection "default" Http) "SELECT 1" [] 10 Examples.refused _
                  ("Native connection failed: " ++ "Code: 210. Connection refused (localhost:9000)")
                  _ eq_refl eq_refl eq_refl eq_refl)).
Defined.

(** ** Startup *)

(** When HTTP is down and the native probe answers, startup records the
    native connection. *)
Example startup_records_native :
  Lifespan.app_lifespan_startup
    (mkWorld (fun _ => HttpFail Examples.refused)
       (fun _ _ => NativeRows (PList [PTuple [PInt 1%Z]]))
       (fun _ _ => NativeRows (PList [PTuple [PInt 1%Z]])) true true "Traceback")
    Examples.cfg initial_context
  = mkContext (Some (mkConnection "default" Native)) (Some Native).
Proof. reflexivity. Qed.

(** C3 (divergence): when the HTTP probe connects and its SELECT 1 test
    succeeds, [app_lifespan] leaves the process-wide [AppContext] as it
    found it: the assignments of lifespan_code.py:298-299 sit inside the
    branch that is only taken when no HTTP connection was made.  From the
    initial context every valid query then fails with the
    could-not-connect error, with no transport call. *)
Theorem C3_http_probe_not_recorded : forall w cfg ctx resp v,
  w_http_available w = true ->
  w_http w (Lifespan.probe_request cfg) = HttpOk resp ->
  Lifespan.http_connection_execute w cfg "SELECT 1" = Ok v ->
  Lifespan.app_lifespan_startup w cfg ctx = ctx /\
  (forall query params max_rows,
     Gateway.validate query = None ->
     Gateway.execute_db_query w cfg (Lifespan.app_lifespan_startup w cfg initial_context)
       query params max_rows = (Gateway.no_connection_error, [])).
Proof.
  intros w cfg ctx resp v Ha Hp He.
  assert (Hs : forall c, Lifespan.app_lifespan_startup w cfg c = c).
  { intro c. unfold Lifespan.app_lifespan_startup. rewrite Ha, Hp, He. reflexivity. }
  split; [apply Hs|].
  intros query params max_rows Hv. rewrite Hs.
  unfold Gateway.execute_db_query. rewrite Hv. reflexivity.
Qed.

Lemma C3_witness :
  Lifespan.app_lifespan_startup Examples.world_up Examples.cfg initial_context = initial_context /\
  Gateway.execute_db_query Examples.world_up Examples.cfg
    (Lifespan.app_lifespan_startup Examples.world_up Examples.cfg initial_context)
    "SELECT 1" [] 10 = (Gateway.no_connection_error, []).
Proof.
  destruct (C3_http_probe_not_recorded Examples.world_up Examples.cfg initial_context
              Examples.select1_json (PList [PList [PInt 1%Z]]) eq_refl eq_refl eq_refl)
    as [H1 H2].
  split; [exact H1 | apply H2; reflexivity].
Defined.

(** * Further properties of the code *)

(** ** String and list lemmas *)

Lemma prefix_trans : forall s p q,
  String.prefix p q = true -> String.prefix q s = true -> String.prefix p s = true.
Proof.
  induction s as [|c s IH]; intros p q Hpq Hqs.
  - destruct q; [destruct p; [reflexivity|discriminate]|discriminate].
  - destruct q as [|b q]; [destruct p; [reflexivity|discriminate]|].
    destruct p as [|a p]; [reflexivity|].
    simpl in Hpq, Hqs |- *.
    destruct (ascii_dec a b) as [<-|]; [|discriminate].
    destruct (ascii_dec a c) as [<-|]; [|discriminate].
    apply (IH p q Hpq Hqs).
Qed.

Lemma contains_char_cons : forall c d r,
  Py.contains (String c EmptyString) (String d r)
  = Ascii.eqb c d || Py.contains (String c EmptyString) r.
Proof.
  intros c d r. cbn [Py.contains]. f_equal.
  simpl. destruct (ascii_dec c d) as [<-|n].
  - rewrite Ascii.eqb_refl. destruct r; reflexivity.
  - apply Ascii.eqb_neq in n. rewrite n. reflexivity.
Qed.

Lemma split_length_pos : forall c s, 1 <= List.length (Py.split c s).
Proof.
  intros c s; induction s as [|d r IH]; simpl; [lia|].
  destruct (Ascii.eqb c d); simpl; [lia|]. destruct (Py.split c r); simpl; lia.
Qed.

Lemma split_no_sep : forall c s,
  Py.contains (String c EmptyString) s = false -> Py.split c s = [s].
Proof.
  intros c s; induction s as [|d r IH]; intros H; [reflexivity|].
  rewrite contains_char_cons in H. apply orb_false_iff in H as [H1 H2].
  simpl. rewrite H1, (IH H2). reflexivity.
Qed.

Lemma split_sep : forall c s,
  Py.contains (String c EmptyString) s = true -> 2 <= List.length (Py.split c s).
Proof.
  intros c s; induction s as [|d r IH]; intros H; [discriminate H|].
  rewrite contains_char_cons in H. simpl.
  destruct (Ascii.eqb c d) eqn:E.
  - simpl. pose proof (split_length_pos c r). lia.
  - simpl in H. specialize (IH H). destruct (Py.split c r); simpl in *; lia.
Qed.

Lemma join_snoc : forall sep l x, l <> [] ->
  Py.join sep (l ++ [x])%list = Py.join sep l ++ sep ++ x.
Proof.
  intros sep l x; induction l as [|a l IH]; intros H; [contradiction|].
  destruct l as [|b l]; [reflexivity|].
  change (Py.join sep ((a :: b :: l) ++ [x])%list)
    with (a ++ sep ++ Py.join sep ((b :: l) ++ [x])%list).
  rewrite IH by discriminate.
  change (Py.join sep (a :: b :: l)) with (a ++ sep ++ Py.join sep (b :: l)).
  rewrite !str_append_assoc. reflexivity.
Qed.

Lemma map_outcome_length : forall {A B} (f : A -> outcome B) l l',
  map_outcome f l = Ok l' -> List.length l' = List.length l.
Proof.
  intros A B f l; induction l as [|x l IH]; intros l' H; simpl in H.
  - injection H as <-. reflexivity.
  - destruct (f x); [|discriminate H]. cbn [bind] in H.
    destruct (map_outcome f l) eqn:E; [|discriminate H]. cbn [bind] in H.
    injection H as <-. simpl. rewrite (IH _ eq_refl). reflexivity.
Qed.

Lemma iter_truthy : forall d items,
  PyVal.truthy d = true -> PyVal.iter d = Ok items -> items <> [].
Proof.
  intros d items Ht Hi ->.
  destruct d as [| | |s|l|l|kv]; simpl in Ht, Hi; try discriminate Hi; injection Hi as Hi.
  - destruct s; [discriminate Ht | discriminate Hi].
  - subst l. discriminate Ht.
  - subst l. discriminate Ht.
  - destruct kv; [discriminate Ht | discriminate Hi].
Qed.

(** ** The table formatter *)

Lemma format_table_footer : forall r d out,
  PyVal.truthy d = true -> Format.format_table r d = Ok out ->
  exists pre n, PyVal.len d = Ok n /\
    out = pre ++ Py.nl ++ "Total rows: " ++ Py.str_nat (row_count r)
          ++ " (showing first " ++ Py.str_nat n ++ ")".
Proof.
  intros r d out Ht H. unfold Format.format_table in H.
  destruct (PyVal.iter d) as [items|] eqn:Hi; [|discriminate H]. cbn [bind] in H.
  destruct (PyVal.index0 d) as [d0|] eqn:Hd0; [|discriminate H]. cbn [bind] in H.
  match type of H with bind ?b _ = _ => destruct b as [body|] eqn:Hb end; [|discriminate H].
  cbn [bind] in H.
  assert (Hbody : body <> []).
  { pose proof (iter_truthy d items Ht Hi) as Hn.
    destruct d0; cbn iota in Hb;
      try (injection Hb as <-;
           first [exact Hn | destruct items; [destruct (Hn eq_refl) | discriminate]]).
    apply map_outcome_length in Hb. intros ->.
    destruct items; [destruct (Hn eq_refl)|discriminate Hb]. }
  match type of H with
  | match ?rows with [] => _ | _ :: _ => _ end = _ => destruct rows as [|x xs] eqn:Hrows
  end.
  { apply app_eq_nil in Hrows as [_ Hrows]. contradiction. }
  match type of H with bind ?b _ = _ => destruct b as [str_rows|] eqn:Hs end; [|discriminate H].
  cbn [bind] in H.
  match type of H with
  | (let '(_, _) := ?p in _) = _ => destruct p as [head_lines data_rows] eqn:Hp
  end.
  destruct (PyVal.len d) as [n|] eqn:Hl; [|discriminate H]. cbn [bind] in H.
  assert (Hout : forall a b : string, @Ok string a = Ok b -> a = b) by congruence.
  apply Hout in H. subst out.
  match goal with
  | |- exists pre m, _ /\ Py.join ?s (?a ++ ?b ++ ?c ++ [?sp; ?f])%list = _ =>
      exists (Py.join s (a ++ b ++ c ++ [sp])%list), n
  end.
  split; [reflexivity|].
  rewrite <- join_snoc by (simpl; discriminate).
  f_equal. rewrite <- !app_assoc. reflexivity.
Qed.

Lemma format_results_footer : forall r d out,
  success r = true -> (error r = None \/ error r = Some EmptyString) ->
  data r = Some d -> PyVal.truthy d = true ->
  Format.format_query_results r = Ok out ->
  exists pre n, PyVal.len d = Ok n /\
    out = pre ++ Py.nl ++ "Total rows: " ++ Py.str_nat (row_count r)
          ++ " (showing first " ++ Py.str_nat n ++ ")".
Proof.
  intros r d out Hs He Hd Ht H. unfold Format.format_query_results in H.
  rewrite Hs, Hd, Ht in H. cbn [negb] in H.
  destruct He as [He|He]; rewrite He in H; cbn in H;
    eapply format_table_footer; eassumption.
Qed.

(** Extra: when [format_query_results] renders a table (a successful
    result with no error text and truthy [data]), its last line is the
    footer [Total rows: R (showing first N)], with [R] the result's
    [row_count] and [N] the length of its [data]. *)
Theorem format_footer_line : forall r d out,
  success r = true -> (error r = None \/ error r = Some EmptyString) ->
  data r = Some d -> PyVal.truthy d = true ->
  Format.format_query_results r = Ok out ->
  exists pre n, PyVal.len d = Ok n /\
    out = pre ++ Py.nl ++ "Total rows: " ++ Py.str_nat (row_count r)
          ++ " (showing first " ++ Py.str_nat n ++ ")".
Proof. exact format_results_footer. Qed.

Lemma format_footer_line_witness :
  exists pre n, PyVal.len (PList [PList [PInt 1%Z]]) = Ok n /\
    "+---+" ++ Py.nl ++ "| 1 |" ++ Py.nl ++ "+---+" ++ Py.nl ++ "| 1 |" ++ Py.nl ++ "+---+"
    ++ Py.nl ++ "Total rows: 1 (showing first 1)"
    = pre ++ Py.nl ++ "Total rows: " ++ Py.str_nat 1
      ++ " (showing first " ++ Py.str_nat n ++ ")".
Proof.
  apply (format_footer_line
           (mkResult true (Some (PList [PList [PInt 1%Z]])) None 1 [PStr "1"])
           (PList [PList [PInt 1%Z]])); [reflexivity | left; reflexivity | reflexivity
                                         | reflexivity | vm_compute; reflexivity].
Defined.

(** Extra: composed with either normalizer ([process_clickhouse_response]
    or [process_native_result]) and [max_rows >= 1], a rendered table
    ends with [Total rows: R (showing first min(R, max_rows))]: the footer
    shows how many rows were cut. *)
Theorem footer_reports_truncation : forall resp rs query_lower max_rows d out,
  1 <= max_rows ->
  (let r := Func.process_clickhouse_response resp max_rows in
   data r = Some d -> PyVal.truthy d = true -> Format.format_query_results r = Ok out ->
   exists pre, out = pre ++ Py.nl ++ "Total rows: " ++ Py.str_nat (row_count r)
     ++ " (showing first " ++ Py.str_nat (Nat.min (row_count r) max_rows) ++ ")") /\
  (let r := Func.process_native_result rs query_lower max_rows in
   data r = Some d -> PyVal.truthy d = true -> Format.format_query_results r = Ok out ->
   exists pre, out = pre ++ Py.nl ++ "Total rows: " ++ Py.str_nat (row_count r)
     ++ " (showing first " ++ Py.str_nat (Nat.min (row_count r) max_rows) ++ ")").
Proof.
  intros resp rs ql m d out Hm.
  assert (Hgen : forall r, coupled r -> truncated_to m r ->
    data r = Some d -> PyVal.truthy d = true -> Format.format_query_results r = Ok out ->
    exists pre, out = pre ++ Py.nl ++ "Total rows: " ++ Py.str_nat (row_count r)
      ++ " (showing first " ++ Py.str_nat (Nat.min (row_count r) m) ++ ")").
  { intros r [Hc1 Hc2] Htr Hd Ht Hf.
    assert (Hs : success r = true).
    { destruct (success r) eqn:E; [reflexivity|]. destruct (Hc2 eq_refl) as [Hn _]. congruence. }
    destruct (format_results_footer r d out Hs (or_introl (Hc1 Hs)) Hd Ht Hf)
      as (pre & n & Hl & ->).
    specialize (Htr Hs). unfold data_length in Htr. rewrite Hd, Hl in Htr.
    injection Htr as ->. exists pre. reflexivity. }
  split; apply Hgen.
  - apply clickhouse_response_coupled.
  - apply clickhouse_response_truncated; exact Hm.
  - apply native_result_coupled.
  - apply native_result_truncated; exact Hm.
Qed.

Lemma footer_reports_truncation_witness :
  exists pre, Gateway.render Examples.world_up
                (Func.process_native_result
                   (PList [PTuple [PInt 1%Z]; PTuple [PInt 2%Z]; PTuple [PInt 3%Z]])
                   "select n from t" 2)
  = pre ++ Py.nl ++ "Total rows: 3 (showing first 2)".
Proof.
  apply (proj2 (footer_reports_truncation Examples.select1_json
                  (PList [PTuple [PInt 1%Z]; PTuple [PInt 2%Z]; PTuple [PInt 3%Z]])
                  "select n from t" 2
                  (PList [PTuple [PInt 1%Z]; PTuple [PInt 2%Z]])
                  (Gateway.render Examples.world_up
                     (Func.process_native_result
                        (PList [PTuple [PInt 1%Z]; PTuple [PInt 2%Z]; PTuple [PInt 3%Z]])
                        "select n from t" 2)) ltac:(lia))); vm_compute; reflexivity.
Defined.

(** ** The normalizers *)

(** Extra: on a non-empty native result set, [process_native_result]
    succeeds with [row_count] the number of rows and names the columns by
    the query and the first row: [table_name] for [show tables],
    ClickHouse's four [DESCRIBE] headings for [describe]/[desc], one
    [value] column (each item wrapped in a one-cell row) when a
    show/describe result has non-sequence rows; otherwise the first dict
    row's keys, or [column_0 ... column_(k-1)] for a first row of [k]
    cells. *)
Theorem native_column_names : forall r0 rest query_lower max_rows,
  let r := Func.process_native_result (PList (r0 :: rest)) query_lower max_rows in
  success r = true /\ row_count r = S (List.length rest) /\
  (Py.startswith query_lower "show tables" = true -> PyVal.is_list_or_tuple r0 = true ->
     column_names r = [PStr "table_name"]) /\
  (Py.startswith_any query_lower ["describe"; "desc"] = true ->
   PyVal.is_list_or_tuple r0 = true ->
     column_names r = [PStr "name"; PStr "type"; PStr "default_type"; PStr "default_expression"]) /\
  (Py.startswith_any query_lower ["show"; "describe"; "desc"] = true ->
   PyVal.is_list_or_tuple r0 = false ->
     column_names r = [PStr "value"] /\
     data r = Some (PList (map (fun it => PList [it]) (firstn max_rows (r0 :: rest))))) /\
  (Py.startswith_any query_lower ["show"; "describe"; "desc"] = false ->
     forall kv, r0 = PDict kv -> column_names r = PyVal.keys kv) /\
  (Py.startswith_any query_lower ["show"; "describe"; "desc"] = false ->
     forall c0, r0 = PList c0 \/ r0 = PTuple c0 ->
     column_names r = map (fun i => PStr ("column_" ++ Py.str_nat i)) (seq 0 (List.length c0))).
Proof.
  intros r0 rest ql m r. subst r. unfold Func.process_native_result. cbv zeta.
  cbn [PyVal.truthy List.length negb Nat.eqb].
  refine (conj _ (conj _ (conj _ (conj _ (conj _ (conj _ _)))))).
  - destruct (Py.startswith_any ql _); destruct r0; reflexivity.
  - destruct (Py.startswith_any ql _); destruct r0; reflexivity.
  - intros Hs Hl.
    assert (Hshow : Py.startswith_any ql ["show"; "describe"; "desc"] = true).
    { unfold Py.startswith_any, Py.startswith in *. simpl.
      rewrite (prefix_trans ql "show" "show tables" eq_refl Hs). reflexivity. }
    rewrite Hshow, Hs. destruct r0; try discriminate Hl; reflexivity.
  - intros Hs Hl.
    assert (Hshow : Py.startswith_any ql ["show"; "describe"; "desc"] = true).
    { unfold Py.startswith_any in *. simpl in Hs |- *. rewrite Hs, orb_true_r. reflexivity. }
    assert (Hdesc : String.prefix "desc" ql = true).
    { unfold Py.startswith_any, Py.startswith in Hs. simpl in Hs.
      apply orb_true_iff in Hs as [Hs|Hs].
      - exact (prefix_trans ql "desc" "describe" eq_refl Hs).
      - rewrite orb_false_r in Hs. exact Hs. }
    assert (Hnt : Py.startswith ql "show tables" = false).
    { destruct (Py.startswith ql "show tables") eqn:E; [|reflexivity].
      destruct (prefix_compat ql _ _ E Hdesc) as [H|H]; discriminate H. }
    rewrite Hshow, Hnt, Hs. destruct r0; try discriminate Hl; reflexivity.
  - intros Hs Hl. rewrite Hs. destruct r0; try discriminate Hl; split; reflexivity.
  - intros Hs kv ->. rewrite Hs. reflexivity.
  - intros Hs c0 [-> | ->]; rewrite Hs; reflexivity.
Qed.

Lemma native_column_names_witness :
  column_names (Func.process_native_result (PList [PTuple [PStr "events"]]) "show tables" 10)
  = [PStr "table_name"] /\
  column_names (Func.process_native_result (PList [PTuple [PInt 1%Z; PInt 2%Z]]) "select 1, 2" 10)
  = [PStr "column_0"; PStr "column_1"].
Proof.
  destruct (native_column_names (PTuple [PStr "events"]) [] "show tables" 10)
    as (_ & _ & H1 & _).
  destruct (native_column_names (PTuple [PInt 1%Z; PInt 2%Z]) [] "select 1, 2" 10)
    as (_ & _ & _ & _ & _ & _ & H2).
  split; [apply H1; reflexivity|].
  rewrite (H2 eq_refl _ (or_intror eq_refl)). reflexivity.
Defined.

Lemma map_get_dicts : forall metas,
  (forall c, In c metas -> PyVal.is_dict c = true) ->
  map_outcome (fun col => PyVal.get col "name" PNone) metas
  = Ok (map (fun c => match c with PDict ckv => PyVal.dict_get ckv "name" PNone | _ => PNone end)
            metas).
Proof.
  induction metas as [|c metas IH]; intros H; [reflexivity|].
  simpl. destruct c; try (specialize (H _ (or_introl eq_refl)); discriminate H).
  rewrite IH by (intros c Hc; apply H; right; exact Hc). reflexivity.
Qed.

Lemma map_get_non_dict : forall metas c,
  In c metas -> PyVal.is_dict c = false ->
  map_outcome (fun col => PyVal.get col "name" PNone) metas
  = Raise "object has no attribute 'get'".
Proof.
  induction metas as [|c' metas IH]; intros c Hin Hd; [destruct Hin|].
  simpl. destruct Hin as [<-|Hin].
  - destruct c'; try discriminate Hd; reflexivity.
  - destruct c'; try reflexivity. simpl. rewrite (IH c Hin Hd). reflexivity.
Qed.

(** Extra: for a JSON object payload, [process_clickhouse_result] gives
    the empty success without a [data] key.  With [data] rows, the column
    names are the [name] entries of [meta] when [meta] is present (a
    non-dict [meta] entry raises [AttributeError]); without [meta] they
    are the first row's keys when it is a dict, and none otherwise.  The
    rows are cut to [max_rows] and counted before the cut. *)
Theorem clickhouse_result_columns : forall kv max_rows,
  let result := PDict kv in
  (has_key "data" kv = false -> Func.process_clickhouse_result result max_rows = Ok empty_success) /\
  (forall rows, has_key "data" kv = true -> PyVal.dict_get kv "data" (PList []) = PList rows ->
   (forall metas, has_key "meta" kv = true -> PyVal.dict_get kv "meta" (PList []) = PList metas ->
      ((forall c, In c metas -> PyVal.is_dict c = true) ->
       Func.process_clickhouse_result result max_rows
       = Ok (mkResult true (Some (PList (firstn max_rows rows))) None (List.length rows)
               (map (fun c => match c with
                              | PDict ckv => PyVal.dict_get ckv "name" PNone
                              | _ => PNone end) metas))) /\
      ((exists c, In c metas /\ PyVal.is_dict c = false) ->
       Func.process_clickhouse_result result max_rows = Raise "object has no attribute 'get'")) /\
   (has_key "meta" kv = false ->
      (forall ckv rest, rows = PDict ckv :: rest ->
         Func.process_clickhouse_result result max_rows
         = Ok (mkResult true (Some (PList (firstn max_rows rows))) None (List.length rows)
                 (PyVal.keys ckv))) /\
      (PyVal.is_dict (hd PNone rows) = false ->
         Func.process_clickhouse_result result max_rows
         = Ok (mkResult true (Some (PList (firstn max_rows rows))) None (List.length rows) [])))).
Proof.
  intros kv m result. subst result. unfold Func.process_clickhouse_result.
  cbn [PyVal.contains_key bind].
  fold (has_key "data" kv). fold (has_key "meta" kv).
  split; [intros H; rewrite H; reflexivity|].
  intros rows Hd Hrows. rewrite Hd. cbn [negb bind PyVal.get]. rewrite Hrows.
  split.
  - intros metas Hm Hmetas. rewrite Hm. cbn [bind PyVal.get]. rewrite Hmetas.
    cbn [bind PyVal.iter].
    split.
    + intros Hall. rewrite (map_get_dicts metas Hall). reflexivity.
    + intros (c & Hin & Hc). rewrite (map_get_non_dict metas c Hin Hc). reflexivity.
  - intros Hm. rewrite Hm. split.
    + intros ckv rest ->. reflexivity.
    + intros Hh. destruct rows as [|r0 rest]; [reflexivity|].
      simpl in Hh. destruct r0; try discriminate Hh; reflexivity.
Qed.

Lemma clickhouse_result_columns_witness :
  Func.process_clickhouse_result
    (PDict [("meta", PList [PDict [("name", PStr "n"); ("type", PStr "UInt8")]]);
            ("data", PList [PList [PInt 1%Z]; PList [PInt 2%Z]])]) 1
  = Ok (mkResult true (Some (PList [PList [PInt 1%Z]])) None 2 [PStr "n"]).
Proof.
  destruct (clickhouse_result_columns
              [("meta", PList [PDict [("name", PStr "n"); ("type", PStr "UInt8")]]);
               ("data", PList [PList [PInt 1%Z]; PList [PInt 2%Z]])] 1) as [_ H].
  apply (proj1 (proj1 (H [PList [PInt 1%Z]; PList [PInt 2%Z]] eq_refl eq_refl) _ eq_refl eq_refl)).
  intros c [<-|[]]. reflexivity.
Defined.

Ltac to_via_text Hj :=
  unfold Func.process_clickhouse_response; cbn [resp_content_type resp_text resp_json];
  cbv zeta beta;
  destruct Hj as [Hj| ->]; [rewrite Hj | destruct (Py.contains "json" _)].

(** Extra: on the text path of [process_clickhouse_response] (no JSON
    content type, or a body [response.json()] rejects), a body that is
    blank after [strip()] gives the empty success, and a stripped body of
    one line without a tab gives the single [result] cell holding it,
    whether or not the content type is TSV. *)
Theorem clickhouse_response_text_edges : forall ct text j max_rows,
  let resp := mkResponse ct text j in
  let content_type := Py.lower (match ct with Some c => c | None => EmptyString end) in
  Py.contains "json" content_type = false \/ j = None ->
  (Py.strip text = EmptyString ->
     Func.process_clickhouse_response resp max_rows = empty_success) /\
  (Py.strip text <> EmptyString ->
   Py.contains Py.nl (Py.strip text) = false ->
   Py.contains Py.tab (Py.strip text) = false ->
     Func.process_clickhouse_response resp max_rows = Func.single_value (Py.strip text)).
Proof.
  intros ct text j m resp content_type Hj. subst resp content_type.
  split.
  - intros He. to_via_text Hj; rewrite He; destruct (_ || _); reflexivity.
  - intros Hn Hnl Ht.
    assert (Hne : String.eqb (Py.strip text) EmptyString = false)
      by (apply String.eqb_neq; exact Hn).
    assert (Hs : Py.split Py.nl_char (Py.strip text) = [Py.strip text])
      by (apply split_no_sep; exact Hnl).
    to_via_text Hj; rewrite Hne; (destruct (_ || _); [rewrite Hs, Ht | rewrite Hnl]);
      reflexivity.
Qed.

Lemma clickhouse_response_text_edges_witness :
  Func.process_clickhouse_response
    (mkResponse (Some "text/tab-separated-values") (" 42" ++ Py.nl) None) 10
  = Func.single_value "42".
Proof.
  apply (clickhouse_response_text_edges (Some "text/tab-separated-values") (" 42" ++ Py.nl)
           None 10 (or_intror eq_refl)); [discriminate | reflexivity | reflexivity].
Defined.

Lemma tsv_column_names_length : forall k, List.length (tsv_column_names k) = k.
Proof. intros k. unfold tsv_column_names. rewrite length_map, length_seq. reflexivity. Qed.

(** The TSV loop keeps one row per non-blank line and renames the columns
    once, at the first line holding a tab. *)
Lemma tsv_rows_shape : forall lines rows cols,
  List.length (fst (Func.tsv_rows lines rows cols))
  = List.length rows + List.length (filter nonblank lines) /\
  snd (Func.tsv_rows lines rows cols)
  = if List.length cols =? 1 then
      match first_tab_width lines with None => cols | Some k => tsv_column_names k end
    else cols.
Proof.
  induction lines as [|line rest IH]; intros rows cols.
  - simpl. split; [lia|]. destruct (List.length cols =? 1); reflexivity.
  - cbn [Func.tsv_rows first_tab_width filter]. unfold nonblank at 1.
    destruct (String.eqb (Py.strip line) EmptyString) eqn:Eb; cbn [negb].
    + apply IH.
    + destruct (Py.contains Py.tab line) eqn:Et.
      * pose proof (split_sep _ _ Et) as Hk. change (ascii_of_nat 9) with Py.tab_char in Hk.
        fold (tsv_column_names (List.length (Py.split Py.tab_char line))).
        destruct (IH (rows ++ [PList (map PStr (Py.split Py.tab_char line))])%list
                    (if (List.length cols =? 1) &&
                        (List.length cols <? List.length (Py.split Py.tab_char line))
                     then tsv_column_names (List.length (Py.split Py.tab_char line))
                     else cols)) as [H1 H2].
        split.
        -- rewrite H1, length_app. simpl. lia.
        -- rewrite H2. destruct (List.length cols =? 1) eqn:E1.
           ++ apply Nat.eqb_eq in E1. rewrite E1.
              replace (1 <? List.length (Py.split Py.tab_char line)) with true
                by (symmetry; apply Nat.ltb_lt; lia).
              cbn [andb]. rewrite tsv_column_names_length.
              replace (List.length (Py.split Py.tab_char line) =? 1) with false
                by (symmetry; apply Nat.eqb_neq; lia).
              reflexivity.
           ++ cbn [andb]. rewrite E1. reflexivity.
      * destruct (IH (rows ++ [PList [PStr line]])%list cols) as [H1 H2].
        split; [rewrite H1, length_app; simpl; lia | exact H2].
Qed.

Lemma split_single : forall c s l, Py.split c s = [l] -> l = s.
Proof.
  intros c s; induction s as [|d r IH]; intros l H; simpl in H.
  - injection H as <-. reflexivity.
  - destruct (Ascii.eqb c d).
    + pose proof (split_length_pos c r). destruct (Py.split c r); [simpl in *; lia|discriminate H].
    + destruct (Py.split c r) as [|w ws] eqn:E.
      { pose proof (split_length_pos c r) as Hp. rewrite E in Hp. simpl in Hp. lia. }
      injection H as <- ->. rewrite (IH w eq_refl). reflexivity.
Qed.

Lemma tsv_shape_result : forall lines m,
  row_count (let '(rows, cols) := Func.tsv_rows lines [] [PStr "value"] in
             mkResult true (Some (PList (firstn m rows))) None (List.length rows) cols)
  = List.length (filter nonblank lines) /\
  column_names (let '(rows, cols) := Func.tsv_rows lines [] [PStr "value"] in
                mkResult true (Some (PList (firstn m rows))) None (List.length rows) cols)
  = match first_tab_width lines with None => [PStr "value"] | Some k => tsv_column_names k end.
Proof.
  intros lines m. destruct (tsv_rows_shape lines [] [PStr "value"]) as [H1 H2].
  destruct (Func.tsv_rows lines [] [PStr "value"]) as [rows cols]. simpl in H1, H2 |- *.
  split; [exact H1 | exact H2].
Qed.

(** Extra: for a TSV response whose stripped body has several lines or a
    tab, [row_count] is the number of non-blank lines, and the column
    names are [value] when no line holds a tab, else
    [column_1 ... column_k] with [k] the cell count of the first
    non-blank line holding a tab (later, wider lines do not change it). *)
Theorem tsv_response_columns : forall ct text j max_rows,
  let resp := mkResponse ct text j in
  let content_type := Py.lower (match ct with Some c => c | None => EmptyString end) in
  let lines := Py.split Py.nl_char (Py.strip text) in
  Py.contains "json" content_type = false \/ j = None ->
  Py.contains "text/tab-separated-values" content_type || Py.contains "tsv" content_type = true ->
  Py.strip text <> EmptyString ->
  Py.contains Py.nl (Py.strip text) = true \/ Py.contains Py.tab (Py.strip text) = true ->
  row_count (Func.process_clickhouse_response resp max_rows) = List.length (filter nonblank lines) /\
  column_names (Func.process_clickhouse_response resp max_rows)
  = match first_tab_width lines with
    | None => [PStr "value"]
    | Some k => tsv_column_names k
    end.
Proof.
  intros ct text j m resp content_type lines Hj Htsv Hn Hc. subst resp content_type lines.
  assert (Hne : String.eqb (Py.strip text) EmptyString = false)
    by (apply String.eqb_neq; exact Hn).
  pose proof (split_length_pos Py.nl_char (Py.strip text)) as Hp.
  assert (Hc' : 2 <= List.length (Py.split Py.nl_char (Py.strip text)) \/
                (Py.split Py.nl_char (Py.strip text) = [Py.strip text] /\
                 Py.contains Py.tab (Py.strip text) = true)).
  { destruct (Py.contains Py.nl (Py.strip text)) eqn:Hnl.
    - left. exact (split_sep _ _ Hnl).
    - right. destruct Hc as [Hc|Hc]; [discriminate Hc|].
      split; [apply split_no_sep; exact Hnl | exact Hc]. }
  to_via_text Hj; rewrite Htsv; cbv zeta; rewrite Hne.
  all: destruct Hc' as [Hk|[Hs Ht]];
    [ destruct (Py.split Py.nl_char (Py.strip text)) as [|l0 [|l1 ls]];
        simpl in Hk; try lia; apply tsv_shape_result
    | rewrite Hs, Ht; apply tsv_shape_result ].
Qed.

Lemma tsv_response_columns_witness :
  row_count (Func.process_clickhouse_response Examples.tsv_answer 10) = 3 /\
  column_names (Func.process_clickhouse_response Examples.tsv_answer 10)
  = [PStr "column_1"; PStr "column_2"].
Proof.
  apply (tsv_response_columns (resp_content_type Examples.tsv_answer)
           (resp_text Examples.tsv_answer) None 10);
    [right; reflexivity | reflexivity | discriminate | left; reflexivity].
Defined.

(** Extra: the HTTP client of lifespan_code.py sends no [max_result_rows]
    and never truncates: on a JSON answer it returns the payload's whole
    [data] list, counts it as [row_count] and leaves [column_names]
    empty, whatever [max_rows] is; on any other answer it returns the
    whole stripped body as one [result] cell with [row_count] 1. *)
Theorem lifespan_http_query_untruncated :
  forall server host port database query username password params max_rows resp,
  let req := mkRequest host port
               (match params with [] => query | _ => Func.substitute params query end)
               username password database (Some "JSONCompact") None in
  let content_type :=
    Py.lower (match resp_content_type resp with Some c => c | None => EmptyString end) in
  server req = HttpOk resp ->
  (forall kv rows, Py.contains "json" content_type = true -> resp_json resp = Some (PDict kv) ->
     PyVal.dict_get kv "data" (PList []) = PList rows ->
     Lifespan.execute_http_query server host port database query username password params max_rows
     = mkResult true (Some (PList rows)) None (List.length rows) []) /\
  (Py.contains "json" content_type = false ->
     Lifespan.execute_http_query server host port database query username password params max_rows
     = mkResult true (Some (PList [PList [PStr (Py.strip (resp_text resp))]])) None 1
         [PStr "result"]).
Proof.
  intros server host port database query username password params m resp req ct Hs.
  unfold Lifespan.execute_http_query. fold req. rewrite Hs. subst ct.
  split.
  - intros kv rows Hj Hjs Hd. rewrite Hj, Hjs. cbn [bind PyVal.get]. rewrite Hd. reflexivity.
  - intros Hj. rewrite Hj. reflexivity.
Qed.

Lemma lifespan_http_query_untruncated_witness :
  Lifespan.execute_http_query (fun _ => HttpOk Examples.select1_json) "localhost" 8123
    "default" "SELECT 1" "default" EmptyString [] 0
  = mkResult true (Some (PList [PList [PInt 1%Z]])) None 1 [].
Proof.
  apply (proj1 (lifespan_http_query_untruncated (fun _ => HttpOk Examples.select1_json)
                  "localhost" 8123 "default" "SELECT 1" "default" EmptyString [] 0
                  Examples.select1_json eq_refl)
           [("meta", PList [PDict [("name", PStr "1"); ("type", PStr "UInt8")]]);
            ("data", PList [PList [PInt 1%Z]]);
            ("rows", PInt 1%Z)] [PList [PInt 1%Z]]); reflexivity.
Defined.

(** ** The gateway's transport calls *)

Lemma primary_trace : forall w cfg ctx conn query params m,
  snd (Gateway.primary_attempt w cfg ctx conn query params m) =
  match ctx_connection_mode ctx with
  | Some Http => [CallHttp (Func.http_request (cfg_host cfg) (cfg_http_port cfg) (dc_database conn)
                              query (cfg_username cfg) (cfg_password cfg) params m)]
  | _ => [CallNative query]
  end.
Proof.
  intros. unfold Gateway.primary_attempt. destruct (ctx_connection_mode ctx) as [[|]|]; reflexivity.
Qed.

Lemma alternate_trace : forall w cfg ctx conn query params m,
  snd (Gateway.alternate_attempt w cfg ctx conn query params m) =
  match Gateway.alternate_mode (ctx_connection_mode ctx) with
  | Http => if w_http_available w
            then [CallHttp (Func.http_request (cfg_host cfg) (cfg_http_port cfg) (dc_database conn)
                              query (cfg_username cfg) (cfg_password cfg) params m)]
            else []
  | Native => if w_native_available w then [CallNativeTemp query] else []
  end.
Proof.
  intros. unfold Gateway.alternate_attempt.
  destruct (Gateway.alternate_mode (ctx_connection_mode ctx));
    [destruct (w_http_available w) | destruct (w_native_available w)]; reflexivity.
Qed.

Lemma exec_trace : forall w cfg ctx query params m,
  snd (Gateway.execute_db_query w cfg ctx query params m) =
  match Gateway.validate query, ctx_connection ctx with
  | None, Some conn =>
      (snd (Gateway.primary_attempt w cfg ctx conn query params m)
       ++ match fst (Gateway.primary_attempt w cfg ctx conn query params m) with
          | Ok _ => []
          | Raise _ => snd (Gateway.alternate_attempt w cfg ctx conn query params m)
          end)%list
  | _, _ => []
  end.
Proof.
  intros. unfold Gateway.execute_db_query.
  destruct (Gateway.validate query); [reflexivity|].
  destruct (ctx_connection ctx) as [conn|]; [|reflexivity].
  destruct (Gateway.primary_attempt w cfg ctx conn query params m) as [[r|e1] t1].
  - simpl. rewrite app_nil_r. reflexivity.
  - destruct (Gateway.alternate_attempt w cfg ctx conn query params m) as [[r|e2] t2];
      reflexivity.
Qed.

(** Extra: one [execute_db_query] makes at most two transport calls; a
    native call carries the query text as given; in HTTP mode the
    persistent native client is never used, and in native mode no
    temporary native client is built. *)
Theorem gateway_transport_calls : forall w cfg ctx query params max_rows,
  let t := snd (Gateway.execute_db_query w cfg ctx query params max_rows) in
  List.length t <= 2 /\
  (forall q, In (CallNative q) t \/ In (CallNativeTemp q) t -> q = query) /\
  (ctx_connection_mode ctx = Some Http -> forall q, ~ In (CallNative q) t) /\
  (ctx_connection_mode ctx = Some Native -> forall q, ~ In (CallNativeTemp q) t).
Proof.
  intros w cfg ctx query params max_rows t. subst t. rewrite exec_trace.
  destruct (Gateway.validate query); [simpl; intuition|].
  destruct (ctx_connection ctx) as [conn|]; [|simpl; intuition].
  rewrite primary_trace.
  destruct (fst (Gateway.primary_attempt w cfg ctx conn query params max_rows));
    [|rewrite alternate_trace];
    unfold Gateway.alternate_mode;
    destruct (ctx_connection_mode ctx) as [[|]|];
    try destruct (w_http_available w); try destruct (w_native_available w);
    simpl; repeat split; intros; try lia;
    repeat match goal with
    | H : _ \/ _ |- _ => destruct H
    | H : False |- _ => destruct H
    | H : CallNative _ = CallNative _ |- _ => injection H as <-
    | H : CallNativeTemp _ = CallNativeTemp _ |- _ => injection H as <-
    | H : _ = _ |- _ => discriminate H
    end; try reflexivity; intro; intuition discriminate.
Qed.

Lemma gateway_transport_calls_witness :
  List.length (snd (Gateway.execute_db_query Examples.world_down Examples.cfg Examples.ctx_http
                      "SELECT 1" [] 10)) <= 2 /\
  ~ In (CallNative "SELECT 1")
      (snd (Gateway.execute_db_query Examples.world_down Examples.cfg Examples.ctx_http
              "SELECT 1" [] 10)).
Proof.
  destruct (gateway_transport_calls Examples.world_down Examples.cfg Examples.ctx_http
              "SELECT 1" [] 10) as (H1 & _ & H3 & _).
  split; [exact H1 | apply H3; reflexivity].
Defined.

(** Extra: when the connection is not in HTTP mode and the persistent
    native client answers, the gateway returns the formatted native
    result and makes that one call only. *)
Theorem gateway_native_primary : forall w cfg ctx conn query params max_rows rs,
  ctx_connection ctx = Some conn ->
  ctx_connection_mode ctx <> Some Http ->
  Gateway.validate query = None ->
  w_native_conn w query params = NativeRows rs ->
  Gateway.execute_db_query w cfg ctx query params max_rows
  = (Gateway.render w (Func.process_native_result rs (Py.lower (Py.strip query)) max_rows),
     [CallNative query]).
Proof.
  intros w cfg ctx conn query params max_rows rs Hc Hm Hv Hn.
  unfold Gateway.execute_db_query, Gateway.primary_attempt. rewrite Hv, Hc.
  destruct (ctx_connection_mode ctx) as [[|]|]; [contradiction| |]; rewrite Hn; reflexivity.
Qed.

Lemma gateway_native_primary_witness :
  Gateway.execute_db_query Examples.world_native_up Examples.cfg Examples.ctx_native
    "SELECT 1" [] 10
  = (Gateway.render Examples.world_native_up
       (Func.process_native_result (PList [PTuple [PInt 1%Z]]) "select 1" 10),
     [CallNative "SELECT 1"]).
Proof.
  apply (gateway_native_primary Examples.world_native_up Examples.cfg Examples.ctx_native
           (mkConnection "default" Native) "SELECT 1" [] 10 (PList [PTuple [PInt 1%Z]]));
    [reflexivity | discriminate | reflexivity | reflexivity].
Defined.

(** Extra: in HTTP mode, when the HTTP answer normalizes to a success, the
    gateway returns its rendering after exactly one HTTP request; that
    request goes to the HTTP port and the connection's database, asks for
    [JSONCompact] with [max_result_rows = str(max_rows)], and carries the
    query unchanged when there are no parameters. *)
Theorem gateway_http_primary : forall w cfg ctx conn query params max_rows,
  let req := Func.http_request (cfg_host cfg) (cfg_http_port cfg) (dc_database conn) query
               (cfg_username cfg) (cfg_password cfg) params max_rows in
  let r := Func.execute_http_query (w_http w) (cfg_host cfg) (cfg_http_port cfg)
             (dc_database conn) query (cfg_username cfg) (cfg_password cfg) params max_rows in
  ctx_connection ctx = Some conn ->
  ctx_connection_mode ctx = Some Http ->
  Gateway.validate query = None ->
  success r = true ->
  Gateway.execute_db_query w cfg ctx query params max_rows = (Gateway.render w r, [CallHttp req]) /\
  req_port req = cfg_http_port cfg /\ req_database req = dc_database conn /\
  req_default_format req = Some "JSONCompact" /\
  req_max_result_rows req = Some (Py.str_nat max_rows) /\
  (params = [] -> req_query req = query).
Proof.
  intros w cfg ctx conn query params max_rows req r Hc Hm Hv Hs.
  refine (conj _ (conj eq_refl (conj eq_refl (conj eq_refl (conj eq_refl _))))).
  - unfold Gateway.execute_db_query, Gateway.primary_attempt, Gateway.http_attempt.
    rewrite Hv, Hc, Hm. fold r. rewrite Hs. reflexivity.
  - intros ->. reflexivity.
Qed.

Lemma gateway_http_primary_witness :
  fst (Gateway.execute_db_query Examples.world_up Examples.cfg Examples.ctx_http "SELECT 1" [] 10)
  = Gateway.render Examples.world_up
      (Func.process_clickhouse_response Examples.select1_json 10) /\
  req_max_result_rows
    (Func.http_request "localhost" 8123 "default" "SELECT 1" "default" EmptyString [] 10)
  = Some "10".
Proof.
  destruct (gateway_http_primary Examples.world_up Examples.cfg Examples.ctx_http
              (mkConnection "default" Http) "SELECT 1" [] 10 eq_refl eq_refl eq_refl eq_refl)
    as (H1 & _ & _ & _ & H5 & _).
  split; [rewrite H1; reflexivity | exact H5].
Defined.

(** Extra: when the primary transport fails and the alternate transport's
    availability flag is off, the gateway makes no second call and reports
    the primary error with the alternate error
    [Alternate connection mode <mode> not available]. *)
Theorem gateway_alternate_unavailable : forall w cfg ctx conn query params max_rows e1 t1,
  ctx_connection ctx = Some conn ->
  Gateway.validate query = None ->
  Gateway.primary_attempt w cfg ctx conn query params max_rows = (Raise e1, t1) ->
  match Gateway.alternate_mode (ctx_connection_mode ctx) with
  | Http => w_http_available w
  | Native => w_native_available w
  end = false ->
  Gateway.execute_db_query w cfg ctx query params max_rows
  = (Gateway.both_failed_error (ctx_connection_mode ctx) e1
       ("Alternate connection mode "
        ++ Gateway.mode_label (Some (Gateway.alternate_mode (ctx_connection_mode ctx)))
        ++ " not available"), t1).
Proof.
  intros w cfg ctx conn query params max_rows e1 t1 Hc Hv Hp Ha.
  unfold Gateway.execute_db_query. rewrite Hv, Hc, Hp. cbv beta iota.
  unfold Gateway.alternate_attempt.
  destruct (Gateway.alternate_mode (ctx_connection_mode ctx)); rewrite Ha; cbn;
    rewrite app_nil_r; reflexivity.
Qed.

Lemma gateway_alternate_unavailable_witness :
  fst (Gateway.execute_db_query Examples.world_http_only Examples.cfg Examples.ctx_http
         "SELECT 1" [] 10)
  = Gateway.both_failed_error (Some Http) Examples.refused
      "Alternate connection mode native not available".
Proof.
  rewrite (gateway_alternate_unavailable Examples.world_http_only Examples.cfg Examples.ctx_http
             (mkConnection "default" Http) "SELECT 1" [] 10 Examples.refused
             (snd (Gateway.primary_attempt Examples.world_http_only Examples.cfg Examples.ctx_http
                     (mkConnection "default" Http) "SELECT 1" [] 10)));
    reflexivity.
Defined.

(** ** Startup and shutdown *)

Lemma startup_shapes : forall w cfg c0,
  let c := Lifespan.app_lifespan_startup w cfg c0 in
  (c = c0 \/ c = initial_context \/
   c = mkContext (Some (mkConnection (cfg_database cfg) Native)) (Some Native)) /\
  (w_native_available w = false -> c = c0).
Proof.
  intros w cfg c0. unfold Lifespan.app_lifespan_startup.
  destruct (w_http_available w);
    [destruct (w_http w (Lifespan.probe_request cfg));
     [|destruct (Lifespan.http_connection_execute w cfg "SELECT 1")]|];
    cbv beta iota;
    try (split; [left; reflexivity | reflexivity]);
    destruct (w_native_available w) eqn:Hn;
    try (split; [left; reflexivity | reflexivity]);
    destruct (w_native_conn w "SELECT 1" []); split;
    try (intro; discriminate);
    [right; left; reflexivity | right; right; reflexivity
    |right; left; reflexivity | right; right; reflexivity
    |right; left; reflexivity | right; right; reflexivity].
Qed.

(** Extra: startup leaves the context it found, the empty context, or a
    native connection to the configured database; with the native driver
    unavailable it leaves the context unchanged; and from the initial
    context it never records HTTP mode. *)
Theorem startup_outcomes : forall w cfg ctx,
  let c := Lifespan.app_lifespan_startup w cfg ctx in
  (c = ctx \/ c = initial_context \/
   c = mkContext (Some (mkConnection (cfg_database cfg) Native)) (Some Native)) /\
  (w_native_available w = false -> c = ctx) /\
  ctx_connection_mode (Lifespan.app_lifespan_startup w cfg initial_context) <> Some Http.
Proof.
  intros w cfg ctx c. subst c.
  destruct (startup_shapes w cfg ctx) as [H1 H2]. split; [exact H1|split; [exact H2|]].
  destruct (proj1 (startup_shapes w cfg initial_context)) as [->|[->| ->]]; discriminate.
Qed.

Lemma startup_outcomes_witness :
  Lifespan.app_lifespan_startup Examples.world_http_only Examples.cfg Examples.ctx_http
  = Examples.ctx_http.
Proof.
  apply (proj1 (proj2 (startup_outcomes Examples.world_http_only Examples.cfg Examples.ctx_http))).
  reflexivity.
Defined.

(** Extra: when no HTTP connection is made (HTTP unavailable, its probe
    failing, or its [SELECT 1] test failing) and the native driver is
    available, startup records a native connection to the configured
    database if the native [SELECT 1] answers, and otherwise leaves no
    connection at all, dropping any the context held. *)
Theorem startup_native_probe : forall w cfg ctx,
  (w_http_available w = false \/
   (exists e, w_http w (Lifespan.probe_request cfg) = HttpFail e) \/
   (exists resp e, w_http w (Lifespan.probe_request cfg) = HttpOk resp /\
                   Lifespan.http_connection_execute w cfg "SELECT 1" = Raise e)) ->
  w_native_available w = true ->
  (forall rs, w_native_conn w "SELECT 1" [] = NativeRows rs ->
     Lifespan.app_lifespan_startup w cfg ctx
     = mkContext (Some (mkConnection (cfg_database cfg) Native)) (Some Native)) /\
  (forall e, w_native_conn w "SELECT 1" [] = NativeFail e ->
     Lifespan.app_lifespan_startup w cfg ctx = initial_context).
Proof.
  intros w cfg ctx Hh Hn.
  assert (Hpre : forall A (k : option DatabaseConnection * option transport -> A),
    k (if w_http_available w then
         match w_http w (Lifespan.probe_request cfg) with
         | HttpFail _ => (None, None)
         | HttpOk _ =>
             match Lifespan.http_connection_execute w cfg "SELECT 1" with
             | Ok _ => (Some (mkConnection (cfg_database cfg) Http), Some Http)
             | Raise _ => (None, None)
             end
         end
       else (None, None)) = k (None, None)).
  { intros A k. destruct Hh as [H|[[e H]|(resp & e & H1 & H2)]].
    - rewrite H. reflexivity.
    - destruct (w_http_available w); [rewrite H|]; reflexivity.
    - destruct (w_http_available w); [rewrite H1, H2|]; reflexivity. }
  unfold Lifespan.app_lifespan_startup.
  split; intros x Hx;
    match goal with
    | |- (let '(_, _) := ?p in _) = _ =>
        rewrite (Hpre _ (fun q => let '(conn, connection_mode) := q in _))
    end; cbn; rewrite Hn, Hx; reflexivity.
Qed.

Lemma startup_native_probe_witness :
  Lifespan.app_lifespan_startup Examples.world_down Examples.cfg Examples.ctx_http
  = initial_context.
Proof.
  apply (proj2 (startup_native_probe Examples.world_down Examples.cfg Examples.ctx_http
                  (or_intror (or_introl (ex_intro _ Examples.refused eq_refl))) eq_refl)
           "Code: 210. Connection refused (localhost:9000)").
  reflexivity.
Defined.

(** Extra: a full lifecycle from the initial context (startup, then the
    shutdown after [yield]) ends with no connection and no mode, and
    calls the native client's [disconnect()] exactly when startup
    recorded a native connection. *)
Theorem lifecycle_cleanup : forall w cfg,
  let c := Lifespan.app_lifespan_startup w cfg initial_context in
  Lifespan.app_lifespan_shutdown c
  = (initial_context,
     match ctx_connection_mode c with Some Native => [Lifespan.DisconnectNative] | _ => [] end).
Proof.
  intros w cfg c. subst c.
  destruct (proj1 (startup_shapes w cfg initial_context)) as [->|[->| ->]]; reflexivity.
Qed.
